(** * radar_script.py: a shallow embedding and its specification

    The script fetches the latest RainViewer radar frame for a fixed
    point, overlays it on a map and saves a PNG.  This development embeds
    its three functions and the main block over an explicit model of what
    the script touches (HTTP, the image decoder, pyplot's figure table,
    the file system, standard output) and proves the properties its
    specification states.

    Layout: Python values and exceptions; binary64 and exact arithmetic;
    [datetime]; the effect monad; the three functions and the driver;
    then the theorems. *)

From Stdlib Require Import ZArith QArith Lqa Floats.SpecFloat Ascii String List.
From stdpp Require Import base decidable option list strings pretty gmap.

Set Warnings "-register-all".

Local Open Scope string_scope.
Local Open Scope list_scope.
Local Open Scope Z_scope.

(** ** Exceptions and outcomes *)

(** The exception classes the script and the library calls it makes can
    raise.  All of them derive from [Exception]; asynchronous
    [BaseException]s (KeyboardInterrupt, SystemExit) are not part of the
    model. *)
Inductive ExcClass :=
  | ConnectionError | Timeout | HTTPError | JSONDecodeError
  | KeyError | IndexError | TypeError | ValueError | OverflowError
  | ZeroDivisionError | UnidentifiedImageError | OSError | RuntimeError.

#[global] Instance ExcClass_eq_dec : EqDecision ExcClass.
Proof. solve_decision. Defined.

(** An exception object: its class and [str(e)]. *)
Record PyExc := mkExc { exc_class : ExcClass; exc_str : string }.

(** The result of evaluating a Python expression or statement. *)
Inductive Outcome (A : Type) :=
  | Return (a : A)
  | Raise (e : PyExc).
Arguments Return {A} a.
Arguments Raise {A} e.

Definition raises {A} (o : Outcome A) : Prop := exists e, o = Raise e.

Definition obind {A B} (o : Outcome A) (k : A -> Outcome B) : Outcome B :=
  match o with
  | Return a => k a
  | Raise e => Raise e
  end.

(** ** Characters and strings

    A string is a sequence of code points below 256. *)

Definition hex_digit (n : N) : ascii :=
  match n with
  | 0 => "0" | 1 => "1" | 2 => "2" | 3 => "3" | 4 => "4" | 5 => "5"
  | 6 => "6" | 7 => "7" | 8 => "8" | 9 => "9" | 10 => "a" | 11 => "b"
  | 12 => "c" | 13 => "d" | 14 => "e" | _ => "f"
  end%char%N.

Definition dquote : ascii := ascii_of_N 34.
Definition squote : ascii := ascii_of_N 39.

Definition str_contains (c : ascii) (s : string) : bool :=
  existsb (fun d => Ascii.eqb c d) (list_ascii_of_string s).

(** [str.__repr__]: single quotes unless the text has a single quote and
    no double quote; the quote and the backslash are escaped, so are tab,
    newline and carriage return, and what is not printable is written
    [\xhh]. *)
Definition repr_char (quote : ascii) (c : ascii) : string :=
  let n := N_of_ascii c in
  if Ascii.eqb c quote || Ascii.eqb c "\"%char then String "\" (String c "")
  else if (n =? 9)%N then "\t"
  else if (n =? 10)%N then "\n"
  else if (n =? 13)%N then "\r"
  else if ((n <? 32) || ((127 <=? n) && (n <=? 160)) || (n =? 173))%N
       then String "\" (String "x" (String (hex_digit (n / 16))
                                       (String (hex_digit (n mod 16)) "")))
  else String c "".

Definition repr_str (s : string) : string :=
  let quote := if str_contains squote s && negb (str_contains dquote s)
               then dquote else squote in
  String quote
    (String.concat "" (map (repr_char quote) (list_ascii_of_string s))
     +:+ String quote "").

(** [str.startswith] *)
Definition startswith (s p : string) : bool := String.prefix p s.

(** [str.lower] on ASCII letters, as the case-insensitive header lookup
    of [requests] uses it. *)
Definition lower_char (c : ascii) : ascii :=
  let n := N_of_ascii c in
  if ((65 <=? n) && (n <=? 90))%N then ascii_of_N (n + 32) else c.

Definition lower (s : string) : string :=
  string_of_list_ascii (map lower_char (list_ascii_of_string s)).

(** ** Numbers

    Python's [float] is IEEE 754 binary64.  It is modelled by the
    Standard Library's executable specification of binary floating point
    ([SpecFloat], precision 53, exponent bound 1024), so every operation
    below rounds as the interpreter's does. *)

Module Binary64.

Definition prec : Z := 53.
Definition emax : Z := 1024.

Definition float64 := spec_float.

Definition add : float64 -> float64 -> float64 := SFadd prec emax.
Definition sub : float64 -> float64 -> float64 := SFsub prec emax.
Definition mul : float64 -> float64 -> float64 := SFmul prec emax.
Definition div : float64 -> float64 -> float64 := SFdiv prec emax.
Definition eqb : float64 -> float64 -> bool := SFeqb.

(** The double nearest to [n / d] (ties to even): what [int / int]
    computes, and what the parser makes of a decimal literal. *)
Definition round_pos (s : bool) (n d : positive) : float64 :=
  let '(q, e, l) := SFdiv_core_binary prec emax (Zpos n) 0 (Zpos d) 0 in
  binary_round_aux prec emax s q e l.

Definition of_ratio (n : Z) (d : positive) : float64 :=
  match n with
  | Z0 => S754_zero false
  | Zpos p => round_pos false p d
  | Zneg p => round_pos true p d
  end.

(** [float(n)], rounded to nearest. *)
Definition of_Z (n : Z) : float64 := of_ratio n 1.

(** The literal [num / 10^scale], e.g. [15.7] is [literal 157 1]. *)
Definition literal (num : Z) (scale : nat) : float64 :=
  of_ratio num (Z.to_pos (10 ^ Z.of_nat scale)).

Definition is_zero (x : float64) : bool :=
  match x with S754_zero _ => true | _ => false end.



End Binary64.

Abbreviation float64 := Binary64.float64.

(** The arithmetic of [plot_tile_on_map] is written once, over the
    operations Python dispatches on, and read in two number systems:
    binary64, which is what runs, and the rationals, which is what the
    formulas mean. *)
Class PyNum (A : Type) := {
  (** [int / int] for a positive divisor *)
  int_truediv : Z -> positive -> A;
  (** an [int] operand meeting a [float] *)
  num_of_int : Z -> A;
  (** [2 ** z] for a negative [z], which is a [float] *)
  pow2_neg : positive -> A;
  num_add : A -> A -> A;
  num_sub : A -> A -> A;
  num_div : A -> A -> A;
  num_is_zero : A -> bool
}.

#[global] Instance PyNum_float64 : PyNum float64 := {|
  int_truediv := Binary64.of_ratio;
  num_of_int := Binary64.of_Z;
  pow2_neg p := Binary64.of_ratio 1 (Pos.pow 2 p);
  num_add := Binary64.add;
  num_sub := Binary64.sub;
  num_div := Binary64.div;
  num_is_zero := Binary64.is_zero
|}.

#[global] Instance PyNum_Q : PyNum Q := {|
  int_truediv n d := (n # d)%Q;
  num_of_int := inject_Z;
  pow2_neg p := (1 # Pos.pow 2 p)%Q;
  num_add := Qplus;
  num_sub := Qminus;
  num_div := Qdiv;
  num_is_zero q := (Qnum q =? 0)%Z
|}.

(** *** [float.__repr__]

    The shortest decimal string that reads back as the same double, the
    nearest to its value among those; written with an exponent when the
    decimal point falls outside the digits by more than [repr] allows. *)

Module FloatRepr.
Import Binary64.

(** [m * 2^e / 10^p] as a fraction. *)
Definition scaled (m : positive) (e p : Z) : Z * Z :=
  (Zpos m * 2 ^ Z.max e 0 * 10 ^ Z.max (- p) 0,
   2 ^ Z.max (- e) 0 * 10 ^ Z.max p 0).

Definition ndigits (n : Z) : Z := Z.of_nat (String.length (pretty n)).

(** Position of the decimal point: the [k] with
    [10^(k-1) <= m * 2^e < 10^k]. *)
Fixpoint decpt_below (fuel : nat) (m : positive) (e : Z) (j : Z) : Z :=
  match fuel with
  | O => 1 - j
  | S fuel' =>
      let '(n, d) := scaled m e (- j) in
      if d <=? n then 1 - j else decpt_below fuel' m e (j + 1)
  end.

Definition decpt (m : positive) (e : Z) : Z :=
  let '(n, d) := scaled m e 0 in
  if d <=? n then ndigits (n / d) else decpt_below 400 m e 1.

(** [N * 10^p] read back as a double. *)
Definition read_back (N p : Z) : float64 :=
  of_ratio (N * 10 ^ Z.max p 0) (Z.to_pos (10 ^ Z.max (- p) 0)).

(** The candidate with [n] digits, if one of the two neighbours of the
    value at that precision reads back as [S754_finite false m e]. *)
Definition candidate (m : positive) (e : Z) (k : Z) (n : Z)
  : option (Z * Z) :=
  let p := k - n in
  let '(num, den) := scaled m e p in
  let lo := num / den in
  let r := num mod den in
  let hi := lo + 1 in
  let x := S754_finite false m e in
  let ok_lo := (0 <? lo) && eqb (read_back lo p) x in
  let ok_hi := eqb (read_back hi p) x in
  if ok_lo && ok_hi then
    Some (if 2 * r <? den then lo
          else if den <? 2 * r then hi
          else if Z.even lo then lo else hi, p)
  else if ok_lo then Some (lo, p)
  else if ok_hi then Some (hi, p)
  else None.

Fixpoint shortest (fuel : nat) (m : positive) (e k n : Z) : Z * Z :=
  match fuel with
  | O => (Zpos m, 0)
  | S fuel' =>
      match candidate m e k n with
      | Some c => c
      | None => shortest fuel' m e k (n + 1)
      end
  end.

Fixpoint strip_zeros (fuel : nat) (N p : Z) : Z * Z :=
  match fuel with
  | O => (N, p)
  | S fuel' =>
      if (N mod 10 =? 0) && negb (N =? 0)
      then strip_zeros fuel' (N / 10) (p + 1)
      else (N, p)
  end.

Definition zeros (n : Z) : string :=
  string_of_list_ascii (repeat "0"%char (Z.to_nat n)).

(** The digits [ds] with the decimal point after the first [k] of
    them, in [repr]'s layout. *)
Definition layout (ds : string) (k : Z) : string :=
  let n := Z.of_nat (String.length ds) in
  if (k <=? -4) || (16 <? k) then
    let ex := k - 1 in
    let mant := match ds with
                | String c EmptyString => ds
                | String c rest => String c ("." +:+ rest)
                | EmptyString => ds
                end in
    let ea := Z.abs ex in
    mant +:+ "e" +:+ (if ex <? 0 then "-" else "+")
         +:+ (if ea <? 10 then "0" else "") +:+ pretty ea
  else if k <=? 0 then "0." +:+ zeros (- k) +:+ ds
  else if n <=? k then ds +:+ zeros (k - n) +:+ ".0"
  else substring 0 (Z.to_nat k) ds +:+ "."
       +:+ substring (Z.to_nat k) (Z.to_nat (n - k)) ds.

Definition repr (x : float64) : string :=
  match x with
  | S754_nan => "nan"
  | S754_infinity s => if s then "-inf" else "inf"
  | S754_zero s => if s then "-0.0" else "0.0"
  | S754_finite s m e =>
      let k := decpt m e in
      let '(N, p) := shortest 17 m e k 1 in
      let '(N', p') := strip_zeros 20 N p in
      (if s then "-" else "") +:+ layout (pretty N') (ndigits N' + p')
  end.

End FloatRepr.

(** ** Python values

    What [Response.json()] can return, which is also what the timestamp
    handed from one step to the next can be.  A dict keeps its keys in
    insertion order; the keys of a parsed JSON object are strings, one
    entry per key. *)
Inductive PyVal :=
  | PyNone
  | PyBool (b : bool)
  | PyInt (n : Z)
  | PyFloat (f : float64)
  | PyStr (s : string)
  | PyList (l : list PyVal)
  | PyDict (d : list (string * PyVal)).

Definition type_name (v : PyVal) : string :=
  match v with
  | PyNone => "NoneType"
  | PyBool _ => "bool"
  | PyInt _ => "int"
  | PyFloat _ => "float"
  | PyStr _ => "str"
  | PyList _ => "list"
  | PyDict _ => "dict"
  end.

Fixpoint py_repr (v : PyVal) : string :=
  match v with
  | PyNone => "None"
  | PyBool b => if b then "True" else "False"
  | PyInt n => pretty n
  | PyFloat f => FloatRepr.repr f
  | PyStr s => repr_str s
  | PyList l => "[" +:+ String.concat ", " (map py_repr l) +:+ "]"
  | PyDict d =>
      "{" +:+ String.concat ", "
                (map (fun '(k, x) => repr_str k +:+ ": " +:+ py_repr x) d)
          +:+ "}"
  end.

(** [str(v)], which is what a replacement field [{v}] of an f-string
    inserts. *)
Definition py_str (v : PyVal) : string :=
  match v with
  | PyStr s => s
  | _ => py_repr v
  end.

Definition not_subscriptable {A} (v : PyVal) : Outcome A :=
  Raise (mkExc TypeError
           ("'" +:+ type_name v +:+ "' object is not subscriptable")).

(** [d.get(key)] on an insertion-ordered dict. *)
Fixpoint dict_lookup (d : list (string * PyVal)) (key : string)
  : option PyVal :=
  match d with
  | [] => None
  | (k, x) :: d' => if String.eqb k key then Some x else dict_lookup d' key
  end.

(** [v[key]] for a string key. *)
Definition getitem_str (v : PyVal) (key : string) : Outcome PyVal :=
  match v with
  | PyDict d =>
      match dict_lookup d key with
      | Some x => Return x
      | None => Raise (mkExc KeyError (repr_str key))
      end
  | PyList _ =>
      Raise (mkExc TypeError
               "list indices must be integers or slices, not str")
  | PyStr _ =>
      Raise (mkExc TypeError "string indices must be integers, not 'str'")
  | _ => not_subscriptable v
  end.

(** [v[i]] for an integer index; a negative index counts from the end. *)
Definition getitem_int (v : PyVal) (i : Z) : Outcome PyVal :=
  match v with
  | PyList l =>
      let n := Z.of_nat (length l) in
      let j := if i <? 0 then i + n else i in
      if (j <? 0) || (n <=? j)
      then Raise (mkExc IndexError "list index out of range")
      else match l !! Z.to_nat j with
           | Some x => Return x
           | None => Raise (mkExc IndexError "list index out of range")
           end
  | PyStr s =>
      let n := Z.of_nat (String.length s) in
      let j := if i <? 0 then i + n else i in
      if (j <? 0) || (n <=? j)
      then Raise (mkExc IndexError "string index out of range")
      else match String.get (Z.to_nat j) s with
           | Some c => Return (PyStr (String c ""))
           | None => Raise (mkExc IndexError "string index out of range")
           end
  | PyDict _ => Raise (mkExc KeyError (pretty i))
  | _ => not_subscriptable v
  end.

(** ** [datetime]

    [datetime.utcfromtimestamp] and [strftime] as CPython computes them
    on a platform with a 64-bit [time_t]. *)

Record datetime := mkDatetime {
  year : Z; month : Z; day : Z; hour : Z; minute : Z; second : Z
}.

Definition DAYS_IN_MONTH (m : Z) : Z :=
  match m with
  | 1 => 31 | 2 => 28 | 3 => 31 | 4 => 30 | 5 => 31 | 6 => 30
  | 7 => 31 | 8 => 31 | 9 => 30 | 10 => 31 | 11 => 30 | 12 => 31
  | _ => -1
  end.

Definition DAYS_BEFORE_MONTH (m : Z) : Z :=
  match m with
  | 1 => 0 | 2 => 31 | 3 => 59 | 4 => 90 | 5 => 120 | 6 => 151
  | 7 => 181 | 8 => 212 | 9 => 243 | 10 => 273 | 11 => 304 | 12 => 334
  | _ => -1
  end.

Definition b2z (b : bool) : Z := if b then 1 else 0.

(** Proleptic Gregorian ordinal (1 is 0001-01-01) to year, month, day. *)
Definition ord2ymd (ordinal : Z) : Z * Z * Z :=
  let n := ordinal - 1 in
  let n400 := n / 146097 in
  let n := n mod 146097 in
  let y := n400 * 400 + 1 in
  let n100 := n / 36524 in
  let n := n mod 36524 in
  let n4 := n / 1461 in
  let n := n mod 1461 in
  let n1 := n / 365 in
  let n := n mod 365 in
  let y := y + n100 * 100 + n4 * 4 + n1 in
  if (n1 =? 4) || (n100 =? 4) then (y - 1, 12, 31)
  else
    let leapyear := (n1 =? 3) && (negb (n4 =? 24) || (n100 =? 3)) in
    let m := Z.shiftr (n + 50) 5 in
    let preceding := DAYS_BEFORE_MONTH m + b2z ((2 <? m) && leapyear) in
    if n <? preceding then
      let m := m - 1 in
      let preceding :=
        preceding - (DAYS_IN_MONTH m + b2z ((m =? 2) && leapyear)) in
      (y, m, n - preceding + 1)
    else (y, m, n - preceding + 1).

(** Ordinal of 1970-01-01. *)
Definition EPOCH_ORDINAL : Z := 719163.

Definition MINYEAR : Z := 1.
Definition MAXYEAR : Z := 9999.

Definition time_t_overflow {A} : Outcome A :=
  Raise (mkExc OverflowError "timestamp out of range for platform time_t").

(** Whole seconds since the epoch to a UTC [datetime]: [gmtime] refuses a
    year that does not fit its [int] field, the constructor a year
    outside [MINYEAR .. MAXYEAR]. *)
Definition datetime_from_seconds (sec : Z) : Outcome datetime :=
  if (sec <? - 2 ^ 63) || (2 ^ 63 <=? sec) then time_t_overflow
  else
    let days := sec / 86400 in
    let rem := sec mod 86400 in
    let '(y, m, d) := ord2ymd (days + EPOCH_ORDINAL) in
    if (y - 1900 <? - 2 ^ 31) || (2 ^ 31 <=? y - 1900)
    then Raise (mkExc OSError
                  "[Errno 75] Value too large for defined data type")
    else if (y <? MINYEAR) || (MAXYEAR <? y)
    then Raise (mkExc ValueError ("year " +:+ pretty y +:+ " is out of range"))
    else Return (mkDatetime y m d (rem / 3600) (rem mod 3600 / 60) (rem mod 60)).

(** A float timestamp: split into whole seconds and a fraction, the
    fraction scaled to microseconds in binary64 and rounded half to even;
    a fraction that rounds up to a full second carries. *)
Definition float_seconds (f : float64) : Outcome Z :=
  match f with
  | S754_nan => Raise (mkExc ValueError "Invalid value NaN (not a number)")
  | S754_infinity _ => time_t_overflow
  | S754_zero _ => Return 0
  | S754_finite s m e =>
      let sgn := if s then -1 else 1 in
      match e with
      | Zneg p =>
          let den := Zpos (Pos.pow 2 p) in
          let intpart := sgn * (Zpos m / den) in
          let frac := Binary64.of_ratio (sgn * (Zpos m mod den)) (Pos.pow 2 p) in
          let scaled := Binary64.mul frac (Binary64.of_Z 1000000) in
          let us :=
            match scaled with
            | S754_finite s' m' e' =>
                let sgn' := if s' then -1 else 1 in
                match e' with
                | Zneg p' =>
                    let d' := Zpos (Pos.pow 2 p') in
                    let q := Zpos m' / d' in
                    let r := Zpos m' mod d' in
                    sgn' * (if 2 * r <? d' then q
                            else if d' <? 2 * r then q + 1
                            else if Z.even q then q else q + 1)
                | _ => sgn' * (Zpos m' * 2 ^ e')
                end
            | _ => 0
            end in
          Return (if 1000000 <=? us then intpart + 1
                  else if us <? 0 then intpart - 1
                  else intpart)
      | _ => Return (sgn * (Zpos m * 2 ^ e))
      end
  end.

Definition utcfromtimestamp (t : PyVal) : Outcome datetime :=
  match t with
  | PyInt n => datetime_from_seconds n
  | PyBool b => datetime_from_seconds (b2z b)
  | PyFloat f => obind (float_seconds f) datetime_from_seconds
  | _ => Raise (mkExc TypeError
                  ("'" +:+ type_name t
                       +:+ "' object cannot be interpreted as an integer"))
  end.

Definition pad (width : nat) (n : Z) : string :=
  let s := pretty n in
  string_of_list_ascii (repeat "0"%char (width - String.length s)) +:+ s.

(** [strftime] for the directives the script uses; any other character is
    copied. *)
Fixpoint strftime (dt : datetime) (fmt : string) : string :=
  match fmt with
  | String "%" (String c rest) =>
      (if Ascii.eqb c "Y" then pad 4 (year dt)
       else if Ascii.eqb c "m" then pad 2 (month dt)
       else if Ascii.eqb c "d" then pad 2 (day dt)
       else if Ascii.eqb c "H" then pad 2 (hour dt)
       else if Ascii.eqb c "M" then pad 2 (minute dt)
       else String "%" (String c ""))
      +:+ strftime dt rest
  | String c rest => String c (strftime dt rest)
  | EmptyString => ""
  end.

(** ** The map extent (lines 55-57 of the script) *)

Record Extent (A : Type) := mkExtent {
  lon_min : A; lon_max : A; lat_min : A; lat_max : A
}.
Arguments mkExtent {A}.
Arguments lon_min {A}.
Arguments lon_max {A}.
Arguments lat_min {A}.
Arguments lat_max {A}.

Section Extent.
Context {A : Type} `{PyNum A}.

(** [2 ** zoom]: an [int] for a non-negative exponent, a [float]
    otherwise; [360 / _] is then [int / int] or [int / float], and a
    zero divisor raises. *)
Definition delta_of (zoom : Z) : Outcome A :=
  match zoom with
  | Zneg p =>
      let d := pow2_neg p in
      if num_is_zero d
      then Raise (mkExc ZeroDivisionError "float division by zero")
      else Return (num_div (num_of_int 360) d)
  | _ => Return (int_truediv 360 (Z.to_pos (2 ^ zoom)))
  end.

Definition half (delta : A) : A := num_div delta (num_of_int 2).

Definition extent_of (lat lon delta : A) : Extent A :=
  {| lat_min := num_sub lat (half delta);
     lat_max := num_add lat (half delta);
     lon_min := num_sub lon (half delta);
     lon_max := num_add lon (half delta) |}.

Definition extent (lat lon : A) (zoom : Z) : Outcome (Extent A) :=
  obind (delta_of zoom) (fun delta => Return (extent_of lat lon delta)).

End Extent.

(** ** The world the script runs in *)

(** A [requests.Response], as far as the script reads it.  [json_body]
    is what [Response.json()] does with the body: the parsed value, or the
    decoder's exception. *)
Record Response := mkResponse {
  status_code : Z;
  reason : string;
  url : string;
  headers : list (string * string);
  content : list Byte.byte;
  json_body : Outcome PyVal
}.

(** [Response.raise_for_status] of [requests]. *)
Definition raise_for_status (r : Response) : Outcome unit :=
  let msg kind :=
    pretty (status_code r) +:+ " " +:+ kind +:+ " Error: " +:+ reason r
      +:+ " for url: " +:+ url r in
  if (400 <=? status_code r) && (status_code r <? 500)
  then Raise (mkExc HTTPError (msg "Client"))
  else if (500 <=? status_code r) && (status_code r <? 600)
  then Raise (mkExc HTTPError (msg "Server"))
  else Return tt.

(** [Response.headers.get(key, default)]: header names compare without
    case. *)
Fixpoint headers_get (h : list (string * string)) (key default : string)
  : string :=
  match h with
  | [] => default
  | (k, v) :: h' =>
      if String.eqb (lower k) (lower key) then v else headers_get h' key default
  end.

(** A [PIL.Image.Image]. *)
Record Image := mkImage {
  mode : string;
  width : Z;
  height : Z;
  pixels : list Byte.byte
}.

(** What is drawn on the axes of a figure, in call order. *)
Inductive Artist :=
  | SetExtent (e : Extent float64)
  | Imshow (img : Image) (origin : string) (e : Extent float64)
           (alpha : float64) (zorder : Z)
  | AddFeature (name : string) (facecolor edgecolor : option string)
               (linewidth : option float64) (linestyle : option string)
               (zorder : Z)
  | Coastlines (resolution color : string) (linewidth : float64) (zorder : Z)
  | SetXTicks (start stop : float64) (num : Z)
  | SetYTicks (start stop : float64) (num : Z)
  | SetXFormatter (zero_direction_label : bool) (number_format : string)
  | SetYFormatter (number_format : string)
  | Title (text color : string).

Record Figure := mkFigure {
  fig_num : nat;
  fig_size : Z * Z;
  fig_dpi : Z;
  fig_facecolor : string;
  fig_artists : list Artist
}.

(** A PNG on disk: the figure it renders and the options of [savefig]. *)
Record Picture := mkPicture {
  pic_figure : Figure;
  pic_dpi : Z;
  pic_bbox_inches : string;
  pic_facecolor : string
}.

(** The calls into matplotlib and cartopy. *)
Inductive MplCall :=
  | CallRcParamsUpdate
  | CallSubplots
  | CallDraw (a : Artist)
  | CallSavefig (filename : string)
  | CallClose (fig : nat).

(** What the script does not control: the network, the image decoder and
    whether a plotting call fails (a missing map data set, a disk that
    cannot be written). *)
Record World := mkWorld {
  (** [requests.get(url, timeout=t)]: a response, or the transport's
      exception *)
  http : string -> Z -> Outcome Response;
  (** [Image.open(BytesIO(content))] *)
  image_open : list Byte.byte -> Outcome Image;
  (** the pixel data of [Image.convert(mode)] *)
  convert_pixels : string -> Image -> list Byte.byte;
  mpl_fault : MplCall -> option PyExc
}.

(** What the script changes. *)
Record State := mkState {
  (** lines printed *)
  stdout : list string;
  (** requests sent: URL and timeout *)
  requests : list (string * Z);
  (** plotting calls made, in order *)
  calls : list MplCall;
  rcParams : gmap string string;
  (** pyplot's open figures, the current one first *)
  figures : list Figure;
  (** the working directory *)
  files : gmap string Picture
}.

Definition initial : State :=
  {| stdout := []; requests := []; calls := []; rcParams := ∅;
     figures := []; files := ∅ |}.

(** ** Statements: state passing with exceptions *)

Definition M (A : Type) : Type := State -> Outcome A * State.

Definition ret {A} (a : A) : M A := fun s => (Return a, s).

Definition throw {A} (e : PyExc) : M A := fun s => (Raise e, s).

Definition bind {A B} (c : M A) (k : A -> M B) : M B :=
  fun s =>
    match c s with
    | (Return a, s') => k a s'
    | (Raise e, s') => (Raise e, s')
    end.

(** [try: c  except Exception as e: h e] *)
Definition try_except {A} (c : M A) (h : PyExc -> M A) : M A :=
  fun s =>
    match c s with
    | (Return a, s') => (Return a, s')
    | (Raise e, s') => h e s'
    end.

Definition lift {A} (o : Outcome A) : M A := fun s => (o, s).

Notation "x <- c ;; k" := (bind c (fun x => k))
  (at level 100, c at next level, right associativity).
Notation "c ;;; k" := (bind c (fun _ => k))
  (at level 100, right associativity).

(** [print(a, b, ...)]: the arguments separated by a space. *)
Definition print (args : list string) : M unit :=
  fun s =>
    (Return tt,
     {| stdout := stdout s ++ [String.concat " " args];
        requests := requests s; calls := calls s; rcParams := rcParams s;
        figures := figures s; files := files s |}).

Definition log_request (u : string) (t : Z) (s : State) : State :=
  {| stdout := stdout s; requests := requests s ++ [(u, t)];
     calls := calls s; rcParams := rcParams s; figures := figures s;
     files := files s |}.

Definition log_call (c : MplCall) (s : State) : State :=
  {| stdout := stdout s; requests := requests s; calls := calls s ++ [c];
     rcParams := rcParams s; figures := figures s; files := files s |}.

Definition set_rcParams (rc : gmap string string) (s : State) : State :=
  {| stdout := stdout s; requests := requests s; calls := calls s;
     rcParams := rc; figures := figures s; files := files s |}.

Definition set_figures (fs : list Figure) (s : State) : State :=
  {| stdout := stdout s; requests := requests s; calls := calls s;
     rcParams := rcParams s; figures := fs; files := files s |}.

Definition set_files (fl : gmap string Picture) (s : State) : State :=
  {| stdout := stdout s; requests := requests s; calls := calls s;
     rcParams := rcParams s; figures := figures s; files := fl |}.

Definition add_artist (a : Artist) (f : Figure) : Figure :=
  {| fig_num := fig_num f; fig_size := fig_size f; fig_dpi := fig_dpi f;
     fig_facecolor := fig_facecolor f;
     fig_artists := fig_artists f ++ [a] |}.

(** The number pyplot gives a new figure: one more than the largest in
    use. *)
Definition next_num (fs : list Figure) : nat :=
  S (foldr Nat.max 0%nat (map fig_num fs)).

(** ** Configuration (lines 23-25) *)

Definition ZOOM : Z := 7.
Definition LAT : float64 := Binary64.literal 157 1.
Definition LON : float64 := Binary64.literal 1217 1.
Definition AUTO_SAVE : bool := true.

(** ** The script *)

Section Script.

Variable w : World.

(** [requests.get(url, timeout=timeout)] *)
Definition requests_get (url : string) (timeout : Z) : M Response :=
  fun s => (http w url timeout, log_request url timeout s).

(** [Image.open(BytesIO(content)).convert(mode)] *)
Definition Image_open_convert (content : list Byte.byte) (m : string)
  : M Image :=
  img <- lift (image_open w content) ;;
  ret {| mode := m; width := width img; height := height img;
         pixels := convert_pixels w m img |}.

(** [plt.subplots(figsize=, dpi=, facecolor=, subplot_kw=)]: a new
    figure, which becomes the current one. *)
Definition subplots (size : Z * Z) (dpi : Z) (facecolor : string)
  : M nat :=
  fun s0 =>
    let s := log_call CallSubplots s0 in
    match mpl_fault w CallSubplots with
    | Some e => (Raise e, s)
    | None =>
        let n := next_num (figures s) in
        (Return n,
         set_figures (mkFigure n size dpi facecolor [] :: figures s) s)
    end.

(** A drawing call on the axes of the current figure.  (pyplot opens a
    figure when there is none; the script only draws after
    [subplots].) *)
Definition draw (a : Artist) : M unit :=
  fun s0 =>
    let s := log_call (CallDraw a) s0 in
    match mpl_fault w (CallDraw a) with
    | Some e => (Raise e, s)
    | None =>
        (Return tt,
         match figures s with
         | f :: fs => set_figures (add_artist a f :: fs) s
         | [] => s
         end)
    end.

(** [plt.savefig(filename, dpi=, bbox_inches=, facecolor=)]: writes the
    current figure, replacing a file of that name. *)
Definition savefig (filename : string) (dpi : Z) (bbox facecolor : string)
  : M unit :=
  fun s0 =>
    let s := log_call (CallSavefig filename) s0 in
    match mpl_fault w (CallSavefig filename) with
    | Some e => (Raise e, s)
    | None =>
        (Return tt,
         match figures s with
         | f :: _ =>
             set_files (<[filename := mkPicture f dpi bbox facecolor]>
                          (files s)) s
         | [] => s
         end)
    end.

(** [fig.get_facecolor()] *)
Definition get_facecolor (fig : nat) : M string :=
  fun s =>
    (Return match List.filter (fun f => Nat.eqb (fig_num f) fig) (figures s) with
            | f :: _ => fig_facecolor f
            | [] => ""
            end, s).

(** [plt.close(fig)] *)
Definition close (fig : nat) : M unit :=
  fun s =>
    (Return tt,
     set_figures
       (List.filter (fun f => negb (Nat.eqb (fig_num f) fig)) (figures s))
       (log_call (CallClose fig) s)).

(** [plt.rcParams.update({...})] *)
Definition rcParams_update (kvs : list (string * string)) : M unit :=
  fun s =>
    (Return tt,
     set_rcParams
       (foldl (fun rc kv => <[kv.1 := kv.2]> rc) (rcParams s) kvs)
       (log_call CallRcParamsUpdate s)).

(** *** [get_latest_timestamp] (lines 31-35) *)
Definition get_latest_timestamp : M PyVal :=
  r <- requests_get "https://api.rainviewer.com/public/weather-maps.json" 10 ;;
  lift (raise_for_status r) ;;;
  body <- lift (json_body r) ;;
  radar <- lift (getitem_str body "radar") ;;
  past <- lift (getitem_str radar "past") ;;
  frame <- lift (getitem_int past (-1)) ;;
  lift (getitem_str frame "time").

(** *** [get_radar_tile_by_latlon] (lines 38-50) *)

Definition tile_url (timestamp zoom lat lon color tile_size smooth snow : PyVal)
  : string :=
  "https://tilecache.rainviewer.com/v2/radar/"
    +:+ py_str timestamp +:+ "/" +:+ py_str tile_size +:+ "/"
    +:+ py_str zoom +:+ "/" +:+ py_str lat +:+ "/" +:+ py_str lon +:+ "/"
    +:+ py_str color +:+ "/" +:+ py_str smooth +:+ "_" +:+ py_str snow
    +:+ ".png".

Definition get_radar_tile_by_latlon
  (timestamp zoom lat lon color tile_size smooth snow : PyVal)
  : M (option Image) :=
  let url := tile_url timestamp zoom lat lon color tile_size smooth snow in
  print ["Fetching: " +:+ url] ;;;
  r <- requests_get url 15 ;;
  if (status_code r =? 200)
     && startswith (headers_get (headers r) "Content-Type" "") "image"
  then
    img <- Image_open_convert (content r) "RGBA" ;;
    ret (Some img)
  else
    print ["Failed to load tile. Status:"; pretty (status_code r)] ;;;
    ret None.

(** The defaults of the keyword parameters. *)
Definition default_color : PyVal := PyInt 6.
Definition default_tile_size : PyVal := PyInt 256.
Definition default_smooth : PyVal := PyInt 0.
Definition default_snow : PyVal := PyInt 0.

(** *** [plot_tile_on_map] (lines 53-115) *)

Definition output_filename (dt : datetime) (zoom : Z) : string :=
  "radar_" +:+ strftime dt "%Y%m%d_%H%M" +:+ "_z" +:+ pretty zoom +:+ ".png".

Definition plot_tile_on_map (img : Image) (lat lon : float64) (zoom : Z)
  (timestamp : PyVal) (save : bool) : M unit :=
  delta <- lift (delta_of zoom) ;;
  let e := extent_of lat lon delta in
  rcParams_update [("axes.facecolor", "#0e1111"); ("text.color", "white");
                   ("xtick.color", "white"); ("ytick.color", "white")] ;;;
  fig <- subplots (10, 10) 300 "#0e1111" ;;
  draw (SetExtent e) ;;;
  draw (Imshow img "upper" e (Binary64.literal 8 1) 1) ;;;
  draw (AddFeature "LAND" (Some "#3a3a3a") None None None 0) ;;;
  draw (Coastlines "10m" "black" (Binary64.literal 8 1) 5) ;;;
  draw (AddFeature "BORDERS" None (Some "black")
          (Some (Binary64.literal 6 1)) None 5) ;;;
  draw (AddFeature "cultural/admin_1_states_provinces_lines/10m"
          (Some "none") (Some "gray") (Some (Binary64.literal 5 1))
          (Some "--") 5) ;;;
  draw (SetXTicks (lon_min e) (lon_max e) 9) ;;;
  draw (SetYTicks (lat_min e) (lat_max e) 9) ;;;
  draw (SetXFormatter true ".1f") ;;;
  draw (SetYFormatter ".1f") ;;;
  dt <- lift (utcfromtimestamp timestamp) ;;
  draw (Title ("Radar @ " +:+ strftime dt "%Y-%m-%d %H:%MZ") "white") ;;;
  (if save then
     let filename := output_filename dt zoom in
     fc <- get_facecolor fig ;;
     savefig filename 300 "tight" fc ;;;
     print ["Saved image as " +:+ filename]
   else ret tt) ;;;
  close fig.

(** *** The main block (lines 121-131)

    [if img:] tests for [None]: an [Image] object is always true.  The
    handler [except Exception] takes every exception of the model. *)
Definition main : M unit :=
  print ["Fetching latest radar image..."] ;;;
  try_except
    (timestamp <- get_latest_timestamp ;;
     img <- get_radar_tile_by_latlon timestamp (PyInt ZOOM) (PyFloat LAT)
              (PyFloat LON) default_color default_tile_size default_smooth
              default_snow ;;
     match img with
     | Some img => plot_tile_on_map img LAT LON ZOOM timestamp AUTO_SAVE
     | None => print ["No image available."]
     end)
    (fun e => print ["Error:"; exc_str e]).

End Script.

(** ** Reading the metadata document

    The path the specification names: the [radar.past] array of the
    document, and the [time] field of a frame. *)

Definition API_URL : string :=
  "https://api.rainviewer.com/public/weather-maps.json".

Definition radar_past (body : PyVal) : option (list PyVal) :=
  match body with
  | PyDict d =>
      match dict_lookup d "radar" with
      | Some (PyDict rd) =>
          match dict_lookup rd "past" with
          | Some (PyList l) => Some l
          | _ => None
          end
      | _ => None
      end
  | _ => None
  end.

Definition time_field (frame : PyVal) : option PyVal :=
  match frame with
  | PyDict fd => dict_lookup fd "time"
  | _ => None
  end.

(** What [get_latest_timestamp] evaluates to: it depends on the world
    only. *)
Definition timestamp_outcome (w : World) : Outcome PyVal :=
  obind (http w API_URL 10) (fun r =>
  obind (raise_for_status r) (fun _ =>
  obind (json_body r) (fun body =>
  obind (getitem_str body "radar") (fun radar =>
  obind (getitem_str radar "past") (fun past =>
  obind (getitem_int past (-1)) (fun frame =>
  getitem_str frame "time")))))).


(** ** Sample worlds

    Closed worlds on which the script is run in the examples: a service
    that answers both requests, one whose metadata endpoint fails, one
    without the tile, and one that sends an image body the decoder does
    not recognise. *)

Definition sample_document : PyVal :=
  PyDict
    [("version", PyStr "2.0");
     ("generated", PyInt 1700000123);
     ("host", PyStr "https://tilecache.rainviewer.com");
     ("radar",
      PyDict
        [("past",
          PyList
            [PyDict [("time", PyInt 1699999400);
                     ("path", PyStr "/v2/radar/1699999400")];
             PyDict [("time", PyInt 1700000000);
                     ("path", PyStr "/v2/radar/1700000000")]]);
         ("nowcast", PyList [])])].

Definition metadata_response (status : Z) (why : string) (body : Outcome PyVal)
  : Response :=
  {| status_code := status; reason := why; url := API_URL;
     headers := [("Content-Type", "application/json")];
     content := []; json_body := body |}.

Definition not_json : PyExc :=
  mkExc JSONDecodeError "Expecting value: line 1 column 1 (char 0)".

Definition tile_response (status : Z) (why ctype : string)
  (body : list Byte.byte) : Response :=
  {| status_code := status; reason := why; url := "";
     headers := [("content-type", ctype)];
     content := body; json_body := Raise not_json |}.

#[global] Instance byte_eq_dec : EqDecision Byte.byte := Byte.byte_eq_dec.

Definition png_signature : list Byte.byte :=
  [Byte.x89; Byte.x50; Byte.x4e; Byte.x47; Byte.x0d; Byte.x0a; Byte.x1a;
   Byte.x0a].

(** A decoder that, like PIL's, refuses a stream in which it recognises
    no image format; here every stream but those opening with the PNG
    signature. *)
Definition sample_decoder (body : list Byte.byte) : Outcome Image :=
  if decide (take 8 body = png_signature)
  then Return {| mode := "P"; width := 256; height := 256;
                 pixels := drop 8 body |}
  else Raise (mkExc UnidentifiedImageError
                "cannot identify image file <_io.BytesIO object>").

Definition serve (metadata tile : Outcome Response) : World :=
  {| http u _ := if String.eqb u API_URL then metadata else tile;
     image_open := sample_decoder;
     convert_pixels _ img := pixels img;
     mpl_fault _ := None |}.

Definition world_ok : World :=
  serve (Return (metadata_response 200 "OK" (Return sample_document)))
        (Return (tile_response 200 "OK" "image/png" png_signature)).

Definition world_metadata_500 : World :=
  serve (Return (metadata_response 500 "Internal Server Error"
                   (Raise not_json)))
        (Return (tile_response 200 "OK" "image/png" png_signature)).

Definition world_tile_404 : World :=
  serve (Return (metadata_response 200 "OK" (Return sample_document)))
        (Return (tile_response 404 "Not Found" "text/html" [])).

Definition world_bad_image : World :=
  serve (Return (metadata_response 200 "OK" (Return sample_document)))
        (Return (tile_response 200 "OK" "image/png" [])).

(** ** The tile request

    The condition under which [get_radar_tile_by_latlon] decodes the
    body, and what the function evaluates to. *)

Definition is_image_200 (r : Response) : bool :=
  (status_code r =? 200)
  && startswith (headers_get (headers r) "Content-Type" "") "image".

Definition to_rgba (w : World) (img : Image) : Image :=
  {| mode := "RGBA"; width := width img; height := height img;
     pixels := convert_pixels w "RGBA" img |}.

Definition tile_outcome (w : World) (url : string) : Outcome (option Image) :=
  obind (http w url 15) (fun r =>
    if is_image_200 r
    then obind (image_open w (content r))
               (fun img => Return (Some (to_rgba w img)))
    else Return None).

Definition printed (line : string) (s : State) : State :=
  snd (print [line] s).

Definition tile_state (w : World) (url : string) (s : State) : State :=
  let s1 := log_request url 15 (printed ("Fetching: " +:+ url) s) in
  match http w url 15 with
  | Return r =>
      if is_image_200 r then s1
      else printed ("Failed to load tile. Status: " +:+ pretty (status_code r)) s1
  | Raise _ => s1
  end.

(** The URL the main block requests for a timestamp. *)
Definition configured_url (ts : PyVal) : string :=
  tile_url ts (PyInt ZOOM) (PyFloat LAT) (PyFloat LON) default_color
           default_tile_size default_smooth default_snow.

(** ** What a run of [plot_tile_on_map] leaves behind *)

(** The artists drawn for an image, an extent and a time, in order. *)
Definition rendered (img : Image) (e : Extent float64) (dt : datetime)
  : list Artist :=
  [SetExtent e;
   Imshow img "upper" e (Binary64.literal 8 1) 1;
   AddFeature "LAND" (Some "#3a3a3a") None None None 0;
   Coastlines "10m" "black" (Binary64.literal 8 1) 5;
   AddFeature "BORDERS" None (Some "black") (Some (Binary64.literal 6 1))
              None 5;
   AddFeature "cultural/admin_1_states_provinces_lines/10m" (Some "none")
              (Some "gray") (Some (Binary64.literal 5 1)) (Some "--") 5;
   SetXTicks (lon_min e) (lon_max e) 9;
   SetYTicks (lat_min e) (lat_max e) 9;
   SetXFormatter true ".1f";
   SetYFormatter ".1f";
   Title ("Radar @ " +:+ strftime dt "%Y-%m-%d %H:%MZ") "white"].

(** The figure numbered [n] once everything is drawn. *)
Definition finished_figure (n : nat) (img : Image) (e : Extent float64)
  (dt : datetime) : Figure :=
  mkFigure n (10, 10) 300 "#0e1111" (rendered img e dt).

(** The file [savefig] writes for it. *)
Definition saved_picture (n : nat) (img : Image) (e : Extent float64)
  (dt : datetime) : Picture :=
  mkPicture (finished_figure n img e dt) 300 "tight" "#0e1111".

Definition dark_theme (rc : gmap string string) : gmap string string :=
  <["ytick.color" := "white"]>
    (<["xtick.color" := "white"]>
       (<["text.color" := "white"]>
          (<["axes.facecolor" := "#0e1111"]> rc))).

(** The state after a run in which nothing raised. *)
Definition plotted (img : Image) (e : Extent float64) (dt : datetime)
  (zoom : Z) (save : bool) (s : State) : State :=
  let n := next_num (figures s) in
  let filename := output_filename dt zoom in
  {| stdout := stdout s
               ++ (if save then ["Saved image as " +:+ filename] else []);
     requests := requests s;
     calls := calls s
              ++ [CallRcParamsUpdate; CallSubplots]
              ++ map CallDraw (rendered img e dt)
              ++ (if save then [CallSavefig filename] else [])
              ++ [CallClose n];
     rcParams := dark_theme (rcParams s);
     figures := figures s;
     files := if save
              then <[filename := saved_picture n img e dt]> (files s)
              else files s |}.

(** Hoare triples with an exceptional postcondition. *)
Definition triple {A} (P : State -> Prop) (c : M A)
  (Q : A -> State -> Prop) (E : PyExc -> State -> Prop) : Prop :=
  forall s, P s ->
    match c s with
    | (Return a, s') => Q a s'
    | (Raise e, s') => E e s'
    end.

(** The figure numbered [n] is open, on top of the figures [fs]. *)
Definition open_on_top (n : nat) (fs : list Figure) (s : State) : Prop :=
  exists f, figures s = f :: fs /\ fig_num f = n.

(** ** Coordinates on the tenth-of-a-degree grid

    The configuration writes the point with one decimal.  [contains]
    says that, in binary64, a coordinate lies strictly between its two
    bounds; [grid_ok] checks that for a range of tenths, at every zoom
    the script allows. *)





(** ** More sample worlds *)

(** A document whose last frame has no [time] field, behind frames that
    are not objects at all. *)
Definition document_without_time : PyVal :=
  PyDict
    [("radar",
      PyDict [("past", PyList [PyInt 7; PyDict [("path", PyStr "/x")]])])].

Definition world_without_time : World :=
  serve (Return (metadata_response 200 "OK" (Return document_without_time)))
        (Raise (mkExc Timeout "timed out")).

(** ** What a run of [plot_tile_on_map] may change

    [drawing s0 s]: the run that started in [s0] has set the theme and has
    a figure open, and has so far printed nothing, sent nothing and
    written nothing. *)
Definition drawing (s0 s : State) : Prop :=
  stdout s = stdout s0
  /\ requests s = requests s0
  /\ files s = files s0
  /\ rcParams s = dark_theme (rcParams s0)
  /\ figures s <> [].

(** [done_plotting s0 save name s]: what the run has printed and written
    once the saving branch is behind it. *)
Definition done_plotting (s0 : State) (save : bool) (name : string)
  (s : State) : Prop :=
  requests s = requests s0
  /\ rcParams s = dark_theme (rcParams s0)
  /\ if save
     then stdout s = stdout s0 ++ ["Saved image as " +:+ name]
          /\ exists p, files s = <[name := p]> (files s0)
     else stdout s = stdout s0 /\ files s = files s0.

(** How a run can end: [plot_returned] when it returns, [plot_raised]
    when it raises. *)
Definition plot_returned (s0 : State) (zoom : Z) (ts : PyVal) (save : bool)
  (s : State) : Prop :=
  (exists d : float64, delta_of zoom = Return d)
  /\ exists dt, utcfromtimestamp ts = Return dt
       /\ done_plotting s0 save (output_filename dt zoom) s.

Definition plot_raised (s0 : State) (zoom : Z) (s : State) : Prop :=
  stdout s = stdout s0
  /\ requests s = requests s0
  /\ files s = files s0
  /\ ((raises (delta_of (A:=float64) zoom) /\ s = s0)
      \/ rcParams s = dark_theme (rcParams s0)).

(** A tile answered with status 200 and no content type; a tile request
    that times out. *)
Definition bare_response : Response :=
  {| status_code := 200; reason := "OK"; url := "";
     headers := [("Server", "nginx"); ("Content-Length", "8")];
     content := png_signature; json_body := Raise not_json |}.

Definition world_no_content_type : World :=
  serve (Return (metadata_response 200 "OK" (Return sample_document)))
        (Return bare_response).

Definition tile_timeout : PyExc :=
  mkExc Timeout "HTTPSConnectionPool(host='tilecache.rainviewer.com', port=443): Read timed out. (read timeout=15)".

Definition world_tile_timeout : World :=
  serve (Return (metadata_response 200 "OK" (Return sample_document)))
        (Raise tile_timeout).

(** The ten artists drawn before the title; the title comes once the
    timestamp has been converted. *)
Definition rendered_before_title (img : Image) (e : Extent float64)
  : list Artist :=
  [SetExtent e;
   Imshow img "upper" e (Binary64.literal 8 1) 1;
   AddFeature "LAND" (Some "#3a3a3a") None None None 0;
   Coastlines "10m" "black" (Binary64.literal 8 1) 5;
   AddFeature "BORDERS" None (Some "black") (Some (Binary64.literal 6 1))
              None 5;
   AddFeature "cultural/admin_1_states_provinces_lines/10m" (Some "none")
              (Some "gray") (Some (Binary64.literal 5 1)) (Some "--") 5;
   SetXTicks (lon_min e) (lon_max e) 9;
   SetYTicks (lat_min e) (lat_max e) 9;
   SetXFormatter true ".1f";
   SetYFormatter ".1f"].

(** A world in which only writing the file fails. *)
Definition disk_full : PyExc :=
  mkExc OSError "[Errno 28] No space left on device".

Definition world_disk_full : World :=
  {| http := http world_ok;
     image_open := image_open world_ok;
     convert_pixels := convert_pixels world_ok;
     mpl_fault c := match c with
                    | CallSavefig _ => Some disk_full
                    | _ => None
                    end |}.

(** A document whose latest frame carries its time as text. *)
Definition document_text_time : PyVal :=
  PyDict
    [("radar",
      PyDict [("past", PyList [PyDict [("time", PyStr "1700000000")]])])].

Definition world_text_time : World :=
  serve (Return (metadata_response 200 "OK" (Return document_text_time)))
        (Return (tile_response 200 "OK" "image/png" png_signature)).

(** The state in which a run stops when the timestamp does not convert:
    the theme set, the figure open with the first ten artists on it. *)
Definition stopped_before_title (img : Image) (e : Extent float64)
  (s : State) : State :=
  {| stdout := stdout s;
     requests := requests s;
     calls := calls s ++ [CallRcParamsUpdate; CallSubplots]
                ++ map CallDraw (rendered_before_title img e);
     rcParams := dark_theme (rcParams s);
     figures := mkFigure (next_num (figures s)) (10, 10) 300 "#0e1111"
                         (rendered_before_title img e) :: figures s;
     files := files s |}.

(** ** The calendar, backwards

    The inverse of [ord2ymd], as [datetime] computes it: leap years, the
    days before a year, and the ordinal of a date. *)

Definition is_leap (y : Z) : bool :=
  (y mod 4 =? 0) && (negb (y mod 100 =? 0) || (y mod 400 =? 0)).

Definition days_before_year (y : Z) : Z :=
  let p := y - 1 in p * 365 + p / 4 - p / 100 + p / 400.

Definition ymd2ord (y m d : Z) : Z :=
  days_before_year y + DAYS_BEFORE_MONTH m + b2z ((2 <? m) && is_leap y) + d.

(** Month and day of the [n]-th day (from 0) of a year, as the second half
    of [ord2ymd] finds them. *)
Definition month_day (n : Z) (leapyear : bool) : Z * Z :=
  let m := Z.shiftr (n + 50) 5 in
  let preceding := DAYS_BEFORE_MONTH m + b2z ((2 <? m) && leapyear) in
  if n <? preceding then
    let m := m - 1 in
    let preceding :=
      preceding - (DAYS_IN_MONTH m + b2z ((m =? 2) && leapyear)) in
    (m, n - preceding + 1)
  else (m, n - preceding + 1).

(** ** Reading a padded number back *)

Definition digit_step (acc : Z) (c : ascii) : Z :=
  10 * acc + (Z.of_N (N_of_ascii c) - 48).

(** The value of a string of decimal digits. *)
Definition digits_value (s : string) : Z :=
  fold_left digit_step (list_ascii_of_string s) 0.

(** The state the main block ends in when nothing fails. *)
Definition after_success (ts : PyVal) (img : Image) (dt : datetime)
  (s : State) : State :=
  let e := extent_of LAT LON (Binary64.literal 28125 4) in
  let n := next_num (figures s) in
  let name := output_filename dt ZOOM in
  {| stdout := stdout s ++ ["Fetching latest radar image...";
                            "Fetching: " +:+ configured_url ts;
                            "Saved image as " +:+ name];
     requests := requests s ++ [(API_URL, 10); (configured_url ts, 15)];
     calls := calls s
              ++ [CallRcParamsUpdate; CallSubplots]
              ++ map CallDraw (rendered img e dt)
              ++ [CallSavefig name; CallClose n];
     rcParams := dark_theme (rcParams s);
     figures := figures s;
     files := <[name := saved_picture n img e dt]> (files s) |}.
(** * Properties *)

(** ** The model on known values *)

Example repr_str_plain : repr_str "radar" = "'radar'".
Proof. reflexivity. Qed.

Example repr_str_quote :
  repr_str "it's" = String dquote ("it's" +:+ String dquote "").
Proof. reflexivity. Qed.

Example repr_LAT : FloatRepr.repr LAT = "15.7".
Proof. vm_compute. reflexivity. Qed.

Example repr_LON : FloatRepr.repr LON = "121.7".
Proof. vm_compute. reflexivity. Qed.

Example repr_sum :
  FloatRepr.repr (Binary64.add (Binary64.literal 1 1) (Binary64.literal 2 1))
  = "0.30000000000000004".
Proof. vm_compute. reflexivity. Qed.

Example repr_large : FloatRepr.repr (Binary64.of_Z (10 ^ 16)) = "1e+16".
Proof. vm_compute. reflexivity. Qed.

Example repr_small : FloatRepr.repr (Binary64.literal 1 5) = "1e-05".
Proof. vm_compute. reflexivity. Qed.

Example py_str_dict :
  py_str (PyDict [("time", PyInt 1700000000); ("path", PyStr "/v2")])
  = "{'time': 1700000000, 'path': '/v2'}".
Proof. vm_compute. reflexivity. Qed.

Example getitem_last :
  getitem_int (PyList [PyInt 1; PyInt 2; PyInt 3]) (-1) = Return (PyInt 3).
Proof. reflexivity. Qed.

Example getitem_missing_key :
  getitem_str (PyDict [("version", PyStr "2.0")]) "radar"
  = Raise (mkExc KeyError "'radar'").
Proof. reflexivity. Qed.

Example utc_1700000000 :
  utcfromtimestamp (PyInt 1700000000)
  = Return (mkDatetime 2023 11 14 22 13 20).
Proof. reflexivity. Qed.

Example utc_leap_day :
  utcfromtimestamp (PyInt 951782400) = Return (mkDatetime 2000 2 29 0 0 0).
Proof. reflexivity. Qed.

Example utc_before_epoch :
  utcfromtimestamp (PyInt (-1)) = Return (mkDatetime 1969 12 31 23 59 59).
Proof. reflexivity. Qed.

Example utc_last_second :
  utcfromtimestamp (PyInt 253402300799)
  = Return (mkDatetime 9999 12 31 23 59 59).
Proof. reflexivity. Qed.

Example utc_float_carries :
  utcfromtimestamp (PyFloat (Binary64.literal 599999999 7))
  = Return (mkDatetime 1970 1 1 0 1 0).
Proof. vm_compute. reflexivity. Qed.

Example utc_not_a_number :
  utcfromtimestamp (PyStr "1700000000")
  = Raise (mkExc TypeError "'str' object cannot be interpreted as an integer").
Proof. reflexivity. Qed.

Example raise_for_status_404 :
  raise_for_status (tile_response 404 "Not Found" "text/html" [])
  = Raise (mkExc HTTPError "404 Client Error: Not Found for url: ").
Proof. reflexivity. Qed.

Example header_lookup_ignores_case :
  headers_get [("content-type", "image/png")] "Content-Type" "" = "image/png".
Proof. reflexivity. Qed.

Example configured_url_1700000000 :
  configured_url (PyInt 1700000000)
  = "https://tilecache.rainviewer.com/v2/radar/1700000000/256/7/15.7/121.7/6/0_0.png".
Proof. vm_compute. reflexivity. Qed.

(** A whole run against a service that answers both requests. *)
Example main_world_ok :
  let run := main world_ok initial in
  fst run = Return tt
  /\ stdout (snd run)
     = ["Fetching latest radar image...";
        "Fetching: https://tilecache.rainviewer.com/v2/radar/1700000000/256/7/15.7/121.7/6/0_0.png";
        "Saved image as radar_20231114_2213_z7.png"]
  /\ requests (snd run)
     = [(API_URL, 10); (configured_url (PyInt 1700000000), 15)]
  /\ figures (snd run) = []
  /\ map fst (map_to_list (files (snd run))) = ["radar_20231114_2213_z7.png"].
Proof. vm_compute. repeat split; reflexivity. Qed.

(** A run in which the tile body is not an image: the decoder's exception
    reaches the handler of the main block. *)
Example main_world_bad_image :
  let run := main world_bad_image initial in
  fst run = Return tt
  /\ last (stdout (snd run))
     = Some "Error: cannot identify image file <_io.BytesIO object>"
  /\ calls (snd run) = [].
Proof. vm_compute. repeat split; reflexivity. Qed.

(** ** Running statements *)

Lemma bind_Return {A B} (c : M A) (k : A -> M B) s a s' :
  c s = (Return a, s') -> bind c k s = k a s'.
Proof. intros Hc. unfold bind. now rewrite Hc. Qed.

Lemma bind_lift {A B} (o : Outcome A) (k : A -> M B) s :
  bind (lift o) k s =
  match o with Return a => k a s | Raise e => (Raise e, s) end.
Proof. unfold bind, lift. now destruct o. Qed.

(** ** [get_latest_timestamp] *)

Lemma get_latest_timestamp_run w s :
  get_latest_timestamp w s = (timestamp_outcome w, log_request API_URL 10 s).
Proof.
  unfold get_latest_timestamp, timestamp_outcome, requests_get, API_URL.
  unfold bind at 1.
  destruct (http w _ 10) as [r|e]; [|reflexivity]. simpl.
  repeat (rewrite bind_lift;
          match goal with
          | |- context [obind ?o _] => destruct o; simpl; [|reflexivity]
          end).
  reflexivity.
Qed.

Lemma getitem_int_last l :
  getitem_int (PyList l) (-1) =
  match last l with
  | Some x => Return x
  | None => Raise (mkExc IndexError "list index out of range")
  end.
Proof.
  unfold getitem_int. rewrite last_lookup.
  destruct l as [|x l]; [reflexivity|].
  cbn [length Nat.pred].
  change (-1 <? 0) with true. cbv iota.
  rewrite (proj2 (Z.ltb_ge (-1 + Z.of_nat (S (length l))) 0)) by lia.
  rewrite (proj2 (Z.leb_gt (Z.of_nat (S (length l)))
                           (-1 + Z.of_nat (S (length l))))) by lia.
  cbn [orb].
  replace (Z.to_nat (-1 + Z.of_nat (S (length l)))) with (length l) by lia.
  destruct ((x :: l) !! length l) eqn:E; [reflexivity|].
  apply lookup_ge_None in E. cbn [length] in E. lia.
Qed.

Lemma timestamp_no_past_raises body :
  radar_past body = None ->
  raises (obind (getitem_str body "radar") (fun radar =>
          obind (getitem_str radar "past") (fun past =>
          obind (getitem_int past (-1)) (fun frame =>
          getitem_str frame "time")))).
Proof.
  unfold radar_past, raises. intros H.
  destruct body; cbn; try (eexists; reflexivity).
  destruct (dict_lookup d "radar") as [radar|]; cbn; [|eexists; reflexivity].
  destruct radar; cbn; try (eexists; reflexivity).
  destruct (dict_lookup d0 "past") as [past|]; cbn; [|eexists; reflexivity].
  destruct past; try discriminate; cbn; try (eexists; reflexivity).
  match goal with
  | |- context [if ?c then _ else _] => destruct c
  end; cbn; [eexists; reflexivity|].
  destruct (String.get _ s); cbn; eexists; reflexivity.
Qed.

Lemma raises_Raise {A} (e : PyExc) : raises (@Raise A e).
Proof. now exists e. Qed.

Lemma timestamp_outcome_body w r body :
  http w API_URL 10 = Return r ->
  raise_for_status r = Return tt ->
  json_body r = Return body ->
  timestamp_outcome w =
  obind (getitem_str body "radar") (fun radar =>
  obind (getitem_str radar "past") (fun past =>
  obind (getitem_int past (-1)) (fun frame =>
  getitem_str frame "time"))).
Proof.
  intros Hr Hs Hb. unfold timestamp_outcome. rewrite Hr. cbn [obind].
  rewrite Hs. cbn [obind]. rewrite Hb. reflexivity.
Qed.

(** C7. On a successful response whose body parses, [get_latest_timestamp]
    returns the [time] field of the last element of [radar.past]; a
    document without a [radar.past] array, or with an empty one, makes it
    raise instead of returning: a [KeyError] when the [radar] or the
    [past] key is missing, an [IndexError] when the array is empty. *)
Theorem get_latest_timestamp_last_time (w : World) (s : State)
  (r : Response) (body : PyVal) :
  http w API_URL 10 = Return r ->
  raise_for_status r = Return tt ->
  json_body r = Return body ->
  let out := fst (get_latest_timestamp w s) in
  (forall l frame v,
      radar_past body = Some l -> last l = Some frame ->
      time_field frame = Some v -> out = Return v)
  /\ (radar_past body = None \/ radar_past body = Some [] -> raises out)
  /\ (forall d, body = PyDict d -> dict_lookup d "radar" = None ->
      exists e, out = Raise e /\ exc_class e = KeyError)
  /\ (forall d rd, body = PyDict d ->
      dict_lookup d "radar" = Some (PyDict rd) ->
      dict_lookup rd "past" = None ->
      exists e, out = Raise e /\ exc_class e = KeyError)
  /\ (radar_past body = Some [] ->
      exists e, out = Raise e /\ exc_class e = IndexError).
Proof.
  intros Hr Hs Hb out.
  assert (Hout : out =
    obind (getitem_str body "radar") (fun radar =>
    obind (getitem_str radar "past") (fun past =>
    obind (getitem_int past (-1)) (fun frame =>
    getitem_str frame "time")))).
  { unfold out. rewrite get_latest_timestamp_run. cbn [fst].
    now apply timestamp_outcome_body with r. }
  assert (Hempty : radar_past body = Some [] ->
            out = Raise (mkExc IndexError "list index out of range")).
  { intros H. rewrite Hout. unfold radar_past in H.
    destruct body; try discriminate. cbn [getitem_str].
    destruct (dict_lookup d "radar") as [[]|]; try discriminate.
    cbn [obind getitem_str].
    destruct (dict_lookup d0 "past") as [[]|]; try discriminate.
    injection H as ->. reflexivity. }
  repeat split.
  - intros l frame v Hl Hlast Ht. rewrite Hout. unfold radar_past in Hl.
    destruct body; try discriminate. cbn [getitem_str].
    destruct (dict_lookup d "radar") as [[]|]; try discriminate.
    cbn [obind getitem_str].
    destruct (dict_lookup d0 "past") as [[]|]; try discriminate.
    injection Hl as ->. cbn [obind]. rewrite getitem_int_last, Hlast.
    cbn [obind]. unfold time_field in Ht. destruct frame; try discriminate.
    cbn [getitem_str]. now rewrite Ht.
  - intros [H|H].
    + rewrite Hout. now apply timestamp_no_past_raises.
    + rewrite (Hempty H). apply raises_Raise.
  - intros d -> Hd. rewrite Hout. cbn [getitem_str]. rewrite Hd.
    eexists; split; reflexivity.
  - intros d rd -> Hd Hrd. rewrite Hout. cbn [getitem_str]. rewrite Hd.
    cbn [obind getitem_str]. rewrite Hrd. eexists; split; reflexivity.
  - intros H. rewrite (Hempty H). eexists; split; reflexivity.
Qed.

Lemma get_latest_timestamp_last_time_witness :
  fst (get_latest_timestamp world_ok initial) = Return (PyInt 1700000000).
Proof.
  refine (proj1 (get_latest_timestamp_last_time world_ok initial
                   (metadata_response 200 "OK" (Return sample_document))
                   sample_document eq_refl eq_refl eq_refl)
                _ (PyDict [("time", PyInt 1700000000);
                           ("path", PyStr "/v2/radar/1700000000")])
                (PyInt 1700000000) eq_refl eq_refl eq_refl).
Defined.

(** ** [get_radar_tile_by_latlon] *)

Lemma get_radar_tile_run w ts z la lo c tsz sm sn s :
  let url := tile_url ts z la lo c tsz sm sn in
  get_radar_tile_by_latlon w ts z la lo c tsz sm sn s =
  (tile_outcome w url, tile_state w url s).
Proof.
  intros url. unfold get_radar_tile_by_latlon, tile_outcome, tile_state.
  fold url. unfold bind at 1. cbn [print].
  unfold bind at 1. unfold requests_get at 1.
  unfold printed. cbn [print snd String.concat].
  destruct (http w url 15) as [r|e]; cbn [obind]; [|reflexivity].
  unfold is_image_200.
  destruct ((status_code r =? 200)
            && startswith (headers_get (headers r) "Content-Type" "") "image").
  - unfold Image_open_convert, bind, lift, ret, to_rgba.
    destruct (image_open w (content r)); reflexivity.
  - reflexivity.
Qed.



Lemma is_image_200_spec (r : Response) :
  is_image_200 r = true <->
  status_code r = 200
  /\ startswith (headers_get (headers r) "Content-Type" "") "image" = true.
Proof.
  unfold is_image_200. rewrite andb_true_iff, Z.eqb_eq. reflexivity.
Qed.

(** C1, as the code has it.  Given the tile response: a bitmap is
    returned if and only if the status is 200, the content type starts
    with [image] and the decoder accepts the body, and the bitmap is in
    mode RGBA; with that status and content type and a body the decoder
    refuses, the decoder's exception is raised; in every other case the
    function returns [None] without raising, the last line printed being
    the status. *)
Theorem tile_fetch_result (w : World) (s : State)
  (ts z la lo c tsz sm sn : PyVal) (r : Response) :
  http w (tile_url ts z la lo c tsz sm sn) 15 = Return r ->
  let run := get_radar_tile_by_latlon w ts z la lo c tsz sm sn s in
  let image_200 :=
    status_code r = 200
    /\ startswith (headers_get (headers r) "Content-Type" "") "image" = true in
  ((exists img, fst run = Return (Some img)) <->
   image_200 /\ exists raw, image_open w (content r) = Return raw)
  /\ (forall img, fst run = Return (Some img) -> mode img = "RGBA")
  /\ (image_200 ->
      (forall raw, image_open w (content r) = Return raw ->
         fst run = Return (Some (to_rgba w raw)))
      /\ (forall e, image_open w (content r) = Raise e -> fst run = Raise e))
  /\ (~ image_200 ->
      fst run = Return None
      /\ last (stdout (snd run)) =
         Some ("Failed to load tile. Status: " +:+ pretty (status_code r))).
Proof.
  intros Hr run image_200. unfold run. rewrite get_radar_tile_run.
  cbn [fst snd]. unfold tile_outcome, tile_state. rewrite Hr. cbn [obind].
  pose proof (is_image_200_spec r) as Hspec. fold image_200 in Hspec.
  destruct (is_image_200 r).
  - assert (H200 : image_200) by now apply Hspec.
    destruct (image_open w (content r)) as [raw|e]; cbn [obind].
    + split; [split; [intros _; split; [exact H200|now exists raw]
                     |intros _; now eexists]|].
      split; [now intros img [= <-]|].
      split; [|intros Hn; now destruct Hn].
      intros _. split; [now intros raw' [= <-]|intros e [=]].
    + split; [split; [intros [img [=]]|intros [_ [raw [=]]]]|].
      split; [intros img [=]|].
      split; [|intros Hn; now destruct Hn].
      intros _. split; [intros raw [=]|now intros e' [= <-]].
  - assert (Hn : ~ image_200) by (intros H; apply Hspec in H; discriminate).
    split; [split; [intros [img [=]]|intros [H _]; now destruct Hn]|].
    split; [intros img [=]|].
    split; [intros H; now destruct Hn|].
    intros _. split; [reflexivity|].
    unfold printed. cbn [print snd stdout String.concat]. apply last_snoc.
Qed.

Lemma tile_fetch_result_witness :
  fst (get_radar_tile_by_latlon world_ok (PyInt 1700000000) (PyInt ZOOM)
         (PyFloat LAT) (PyFloat LON) default_color default_tile_size
         default_smooth default_snow initial)
  = Return (Some (to_rgba world_ok
                    {| mode := "P"; width := 256; height := 256;
                       pixels := [] |})).
Proof.
  refine (proj1 (proj1 (proj2 (proj2
            (tile_fetch_result world_ok initial
               (PyInt 1700000000) (PyInt ZOOM) (PyFloat LAT)
               (PyFloat LON) default_color default_tile_size
               default_smooth default_snow
               (tile_response 200 "OK" "image/png" png_signature)
               _))) _) _ _).
  - vm_compute. reflexivity.
  - vm_compute. split; reflexivity.
  - vm_compute. reflexivity.
Defined.

(** C1, as stated, fails: a response with status 200 and content type
    [image/png] whose body is not an image makes the function raise, so
    no bitmap is returned although both conditions hold. *)
Lemma tile_fetch_200_image_may_raise :
  let r := tile_response 200 "OK" "image/png" [] in
  let run :=
    get_radar_tile_by_latlon world_bad_image (PyInt 1700000000) (PyInt ZOOM)
      (PyFloat LAT) (PyFloat LON) default_color default_tile_size
      default_smooth default_snow initial in
  http world_bad_image
       (tile_url (PyInt 1700000000) (PyInt ZOOM) (PyFloat LAT) (PyFloat LON)
                 default_color default_tile_size default_smooth default_snow)
       15 = Return r
  /\ status_code r = 200
  /\ startswith (headers_get (headers r) "Content-Type" "") "image" = true
  /\ raises (fst run)
  /\ ~ (exists img, fst run = Return (Some img)).
Proof.
  cbv zeta. repeat split.
  - eexists. vm_compute. reflexivity.
  - intros [img H]. vm_compute in H. discriminate.
Qed.


(** ** The main block *)

(** The main block, by what the two fetches evaluate to. *)
Lemma main_run w s :
  main w s =
  let s1 := log_request API_URL 10 (printed "Fetching latest radar image..." s) in
  match timestamp_outcome w with
  | Raise e => (Return tt, printed ("Error: " +:+ exc_str e) s1)
  | Return ts =>
      let s2 := tile_state w (configured_url ts) s1 in
      match tile_outcome w (configured_url ts) with
      | Raise e => (Return tt, printed ("Error: " +:+ exc_str e) s2)
      | Return None => (Return tt, printed "No image available." s2)
      | Return (Some img) =>
          try_except (plot_tile_on_map w img LAT LON ZOOM ts AUTO_SAVE)
                     (fun e => print ["Error:"; exc_str e]) s2
      end
  end.
Proof.
  unfold main. unfold bind at 1. cbn [print].
  unfold try_except at 1. unfold bind at 1.
  rewrite get_latest_timestamp_run. unfold printed. cbn [print snd String.concat].
  destruct (timestamp_outcome w) as [ts|e]; [|reflexivity].
  unfold bind at 1. rewrite get_radar_tile_run. cbv zeta.
  fold (configured_url ts).
  destruct (tile_outcome w (configured_url ts)) as [[img|]|e]; reflexivity.
Qed.

(** C2. When the timestamp fetch raises, the main block prints the one
    line [Error: ] followed by the exception's message, sends no tile
    request, makes no plotting call, leaves figures and files as they
    were, and ends normally. *)
Theorem main_timestamp_failure (w : World) (s : State) (e : PyExc) :
  fst (get_latest_timestamp w s) = Raise e ->
  main w s =
  (Return tt,
   {| stdout := stdout s ++ ["Fetching latest radar image...";
                             "Error: " +:+ exc_str e];
      requests := requests s ++ [(API_URL, 10)];
      calls := calls s; rcParams := rcParams s;
      figures := figures s; files := files s |}).
Proof.
  rewrite get_latest_timestamp_run. cbn [fst]. intros He.
  rewrite main_run, He. cbv zeta. unfold printed, log_request.
  cbn [print snd String.concat stdout requests calls rcParams figures files].
  rewrite <- app_assoc. reflexivity.
Qed.

Lemma main_timestamp_failure_witness :
  main world_metadata_500 initial =
  (Return tt,
   {| stdout :=
        ["Fetching latest radar image...";
         "Error: 500 Server Error: Internal Server Error for url: https://api.rainviewer.com/public/weather-maps.json"];
      requests := [(API_URL, 10)];
      calls := []; rcParams := ∅; figures := []; files := ∅ |}).
Proof.
  refine (main_timestamp_failure world_metadata_500 initial
            (mkExc HTTPError _) _).
  vm_compute. reflexivity.
Defined.

(** C3. When the timestamp fetch returns and the tile fetch returns
    [None], the main block ends normally, its last line is
    [No image available.], and nothing of the rendering step happens: no
    plotting call, and [rcParams], figures and files are untouched. *)
Theorem main_no_image (w : World) (s : State) (ts : PyVal) :
  fst (get_latest_timestamp w s) = Return ts ->
  fst (get_radar_tile_by_latlon w ts (PyInt ZOOM) (PyFloat LAT) (PyFloat LON)
         default_color default_tile_size default_smooth default_snow s)
  = Return None ->
  let s' := snd (main w s) in
  fst (main w s) = Return tt
  /\ last (stdout s') = Some "No image available."
  /\ calls s' = calls s
  /\ rcParams s' = rcParams s
  /\ figures s' = figures s
  /\ files s' = files s.
Proof.
  rewrite get_latest_timestamp_run, get_radar_tile_run. cbn [fst].
  fold (configured_url ts). intros Hts Himg. cbv zeta.
  rewrite main_run, Hts. cbv zeta. rewrite Himg. cbn [fst snd].
  unfold printed at 1 2 3 4 5 6.
  cbn [print snd String.concat stdout requests calls rcParams figures files].
  unfold tile_state.
  repeat split; try apply last_snoc;
    (destruct (http w (configured_url ts) 15) as [r|?];
     [destruct (is_image_200 r)|]; reflexivity).
Qed.

Lemma main_no_image_witness :
  fst (main world_tile_404 initial) = Return tt
  /\ stdout (snd (main world_tile_404 initial)) =
     ["Fetching latest radar image...";
      "Fetching: https://tilecache.rainviewer.com/v2/radar/1700000000/256/7/15.7/121.7/6/0_0.png";
      "Failed to load tile. Status: 404";
      "No image available."]
  /\ calls (snd (main world_tile_404 initial)) = [].
Proof.
  pose proof (main_no_image world_tile_404 initial (PyInt 1700000000)
                eq_refl eq_refl) as H.
  cbv zeta in H. destruct H as (Hret & _ & Hcalls & _).
  split; [exact Hret|]. split; [|exact Hcalls].
  vm_compute. reflexivity.
Defined.

(** ** The map extent *)

Section ExactExtent.
Local Open Scope Q_scope.

Lemma delta_of_Q (zoom : Z) :
  (0 <= zoom)%Z ->
  delta_of (A:=Q) zoom = Return (360 # Z.to_pos (2 ^ zoom)).
Proof. intros Hz. destruct zoom; [reflexivity|reflexivity|lia]. Qed.

Lemma half_Q (d : Q) : half d == d / 2.
Proof. reflexivity. Qed.


End ExactExtent.












(** C5. At lat 15.7, lon 121.7 and zoom 7: in exact arithmetic [delta]
    is 2.8125 and the bounds are 120.29375, 123.10625, 14.29375 and
    17.10625; in binary64 the script computes the doubles that these
    decimal literals denote. *)
Theorem extent_configured_values :
  (exists (d : Q) (e : Extent Q),
      delta_of 7 = Return d
      /\ extent (157 # 10) (1217 # 10) 7 = Return e
      /\ (d == 360 # 128)%Q /\ (d == 28125 # 10000)%Q
      /\ (lon_min e == 12029375 # 100000)%Q
      /\ (lon_max e == 12310625 # 100000)%Q
      /\ (lat_min e == 1429375 # 100000)%Q
      /\ (lat_max e == 1710625 # 100000)%Q)
  /\ delta_of 7 = Return (Binary64.literal 28125 4)
  /\ extent LAT LON 7 =
     Return {| lon_min := Binary64.literal 12029375 5;
               lon_max := Binary64.literal 12310625 5;
               lat_min := Binary64.literal 1429375 5;
               lat_max := Binary64.literal 1710625 5 |}.
Proof.
  split.
  - do 2 eexists. split; [reflexivity|]. split; [reflexivity|].
    cbn. repeat split; reflexivity.
  - split; vm_compute; reflexivity.
Qed.

(** ** [plot_tile_on_map] *)

Lemma fig_num_le_max (fs : list Figure) (f : Figure) :
  In f fs -> (fig_num f <= foldr Nat.max 0 (map fig_num fs))%nat.
Proof.
  induction fs as [|g fs IH]; [intros []|].
  intros [->|Hin]; cbn [map foldr]; [lia|].
  specialize (IH Hin). lia.
Qed.

(** Closing a figure with a fresh number leaves the open ones alone. *)
Lemma filter_fresh (fs : list Figure) :
  List.filter (fun f => negb (Nat.eqb (fig_num f) (next_num fs))) fs = fs.
Proof.
  assert (H : forall gs, (forall f, In f gs -> In f fs) ->
            List.filter (fun f => negb (Nat.eqb (fig_num f) (next_num fs))) gs
            = gs).
  { induction gs as [|g gs IH]; intros Hsub; [reflexivity|].
    cbn [List.filter].
    pose proof (fig_num_le_max fs g (Hsub g (or_introl eq_refl))) as Hle.
    unfold next_num at 1.
    destruct (Nat.eqb_spec (fig_num g) (S (foldr Nat.max 0%nat (map fig_num fs))))
      as [Heq|Hne]; [lia|].
    cbn [negb]. f_equal. apply IH. intros f Hf. apply Hsub. now right. }
  apply H. auto.
Qed.

(** The plotting calls, one at a time, on a state written out. *)
Section Steps.
Variable w : World.
Hypothesis no_fault : forall c, mpl_fault w c = None.

Lemma rcParams_update_step kvs out req cl rc figs fl :
  rcParams_update kvs (mkState out req cl rc figs fl) =
  (Return tt,
   mkState out req (cl ++ [CallRcParamsUpdate])
           (foldl (fun m kv => <[kv.1 := kv.2]> m) rc kvs) figs fl).
Proof. reflexivity. Qed.

Lemma subplots_step size dpi fc out req cl rc figs fl :
  subplots w size dpi fc (mkState out req cl rc figs fl) =
  (Return (next_num figs),
   mkState out req (cl ++ [CallSubplots]) rc
           (mkFigure (next_num figs) size dpi fc [] :: figs) fl).
Proof. unfold subplots. now rewrite no_fault. Qed.

Lemma draw_step a out req cl rc n size dpi fc arts figs fl :
  draw w a (mkState out req cl rc (mkFigure n size dpi fc arts :: figs) fl) =
  (Return tt,
   mkState out req (cl ++ [CallDraw a]) rc
           (mkFigure n size dpi fc (arts ++ [a]) :: figs) fl).
Proof. unfold draw. now rewrite no_fault. Qed.

Lemma get_facecolor_step out req cl rc n size dpi fc arts figs fl :
  get_facecolor n
    (mkState out req cl rc (mkFigure n size dpi fc arts :: figs) fl) =
  (Return fc,
   mkState out req cl rc (mkFigure n size dpi fc arts :: figs) fl).
Proof.
  unfold get_facecolor. cbn [figures List.filter fig_num].
  now rewrite Nat.eqb_refl.
Qed.

Lemma savefig_step name dpi bbox fc out req cl rc f figs fl :
  savefig w name dpi bbox fc (mkState out req cl rc (f :: figs) fl) =
  (Return tt,
   mkState out req (cl ++ [CallSavefig name]) rc (f :: figs)
           (<[name := mkPicture f dpi bbox fc]> fl)).
Proof. unfold savefig. now rewrite no_fault. Qed.

Lemma print_step line out req cl rc figs fl :
  print [line] (mkState out req cl rc figs fl) =
  (Return tt, mkState (out ++ [line]) req cl rc figs fl).
Proof. reflexivity. Qed.

Lemma close_step out req cl rc size dpi fc arts figs fl :
  close (next_num figs)
    (mkState out req cl rc
             (mkFigure (next_num figs) size dpi fc arts :: figs) fl) =
  (Return tt,
   mkState out req (cl ++ [CallClose (next_num figs)]) rc figs fl).
Proof.
  unfold close. cbn [figures set_figures log_call List.filter fig_num].
  rewrite Nat.eqb_refl. cbn [negb]. now rewrite filter_fresh.
Qed.

Lemma lift_step {A} (a : A) (s : State) : lift (Return a) s = (Return a, s).
Proof. reflexivity. Qed.

End Steps.

Ltac run_step no_fault :=
  erewrite bind_Return
    by first [ apply rcParams_update_step
             | apply subplots_step; exact no_fault
             | apply draw_step; exact no_fault
             | apply get_facecolor_step
             | apply savefig_step; exact no_fault
             | apply print_step
             | apply lift_step ].

Lemma plot_run_ok w img lat lon zoom ts save s d dt :
  (forall c, mpl_fault w c = None) ->
  delta_of zoom = Return d ->
  utcfromtimestamp ts = Return dt ->
  plot_tile_on_map w img lat lon zoom ts save s =
  (Return tt, plotted img (extent_of lat lon d) dt zoom save s).
Proof.
  intros Hw Hd Hdt. destruct s as [out req cl rc figs fl].
  unfold plot_tile_on_map, plotted. rewrite Hd, Hdt.
  cbn [stdout requests calls rcParams figures files].
  do 15 run_step Hw.
  destruct save.
  - erewrite bind_Return by (do 2 run_step Hw; apply print_step).
    rewrite close_step by exact Hw.
    unfold saved_picture, finished_figure, rendered, dark_theme.
    cbn [map foldl app fst snd]. rewrite <- !app_assoc. reflexivity.
  - unfold ret at 1. erewrite bind_Return by reflexivity.
    rewrite close_step by exact Hw.
    unfold rendered, dark_theme.
    cbn [map foldl app fst snd]. rewrite <- !app_assoc, app_nil_r.
    reflexivity.
Qed.

(** C6. For timestamp 1700000000 and zoom 7 the name derived is
    [radar_20231114_2213_z7.png]: a saving run writes the file of that
    name, into a directory otherwise unchanged, and reports it. *)
Theorem filename_1700000000 (w : World) (img : Image) (lat lon : float64)
  (s : State) :
  (forall c, mpl_fault w c = None) ->
  let run := plot_tile_on_map w img lat lon 7 (PyInt 1700000000) true s in
  (exists dt,
      utcfromtimestamp (PyInt 1700000000) = Return dt
      /\ strftime dt "%Y%m%d_%H%M" = "20231114_2213"
      /\ output_filename dt 7 = "radar_20231114_2213_z7.png")
  /\ fst run = Return tt
  /\ stdout (snd run)
     = stdout s ++ ["Saved image as radar_20231114_2213_z7.png"]
  /\ In (CallSavefig "radar_20231114_2213_z7.png") (calls (snd run))
  /\ is_Some (files (snd run) !! "radar_20231114_2213_z7.png")
  /\ (forall name, name <> "radar_20231114_2213_z7.png" ->
        files (snd run) !! name = files s !! name).
Proof.
  intros Hw run.
  split; [eexists; split; [reflexivity|split; reflexivity]|].
  unfold run.
  erewrite plot_run_ok by (try exact Hw; reflexivity).
  cbn [fst snd]. unfold plotted.
  cbn [stdout calls files].
  change (output_filename _ 7) with "radar_20231114_2213_z7.png".
  repeat split.
  - rewrite !in_app_iff. right. right. right. left. now left.
  - rewrite lookup_insert_eq. eauto.
  - intros name Hne. now rewrite lookup_insert_ne.
Qed.

Lemma filename_1700000000_witness :
  stdout (snd (plot_tile_on_map world_ok
                 (mkImage "RGBA" 256 256 []) LAT LON 7 (PyInt 1700000000)
                 true initial))
  = ["Saved image as radar_20231114_2213_z7.png"].
Proof.
  refine (proj1 (proj2 (proj2 (filename_1700000000 world_ok
                                 (mkImage "RGBA" 256 256 []) LAT LON initial
                                 _)))).
  intros c. reflexivity.
Defined.

(** *** Timestamps in the same minute *)

Lemma same_minute_fields (t1 t2 : Z) :
  t1 / 60 = t2 / 60 ->
  t1 / 86400 = t2 / 86400
  /\ (t1 mod 86400) / 3600 = (t2 mod 86400) / 3600
  /\ (t1 mod 86400) mod 3600 / 60 = (t2 mod 86400) mod 3600 / 60.
Proof. intros H. repeat split; Z.div_mod_to_equations; lia. Qed.

Lemma strftime_same_minute (dt1 dt2 : datetime) (fmt : string) :
  year dt1 = year dt2 -> month dt1 = month dt2 -> day dt1 = day dt2 ->
  hour dt1 = hour dt2 -> minute dt1 = minute dt2 ->
  strftime dt1 fmt = strftime dt2 fmt.
Proof.
  intros Hy Hm Hd Hh Hmi.
  assert (Hlen : forall n s, (String.length s <= n)%nat ->
            strftime dt1 s = strftime dt2 s).
  { induction n as [|n IH]; intros s Hs.
    - destruct s; [reflexivity|cbn in Hs; lia].
    - destruct s as [|c s]; [reflexivity|].
      cbn [strftime].
      assert (Hrest : String c (strftime dt1 s) = String c (strftime dt2 s))
        by (f_equal; apply IH; cbn in Hs; lia).
      destruct s as [|c' s'].
      + destruct c as [[] [] [] [] [] [] [] []]; reflexivity.
      + assert (Hs' : strftime dt1 s' = strftime dt2 s')
          by (apply IH; cbn in Hs; lia).
        rewrite Hy, Hm, Hd, Hh, Hmi, Hs'.
        destruct c as [[] [] [] [] [] [] [] []]; try exact Hrest; reflexivity. }
  now apply Hlen with (String.length fmt).
Qed.

Lemma datetime_same_minute (t1 t2 : Z) (dt1 dt2 : datetime) :
  t1 / 60 = t2 / 60 ->
  datetime_from_seconds t1 = Return dt1 ->
  datetime_from_seconds t2 = Return dt2 ->
  year dt1 = year dt2 /\ month dt1 = month dt2 /\ day dt1 = day dt2
  /\ hour dt1 = hour dt2 /\ minute dt1 = minute dt2.
Proof.
  intros Hmin. destruct (same_minute_fields t1 t2 Hmin) as (Hday & Hh & Hm).
  unfold datetime_from_seconds. rewrite Hday.
  destruct ((t1 <? - 2 ^ 63) || (2 ^ 63 <=? t1)); [discriminate|].
  destruct ((t2 <? - 2 ^ 63) || (2 ^ 63 <=? t2)); [discriminate|].
  destruct (ord2ymd (t2 / 86400 + EPOCH_ORDINAL)) as [[y m] d].
  destruct ((y - 1900 <? - 2 ^ 31) || (2 ^ 31 <=? y - 1900)); [discriminate|].
  destruct ((y <? MINYEAR) || (MAXYEAR <? y)); [discriminate|].
  intros [= <-] [= <-]. cbn [year month day hour minute].
  repeat split; assumption.
Qed.



(** *** The figure's lifetime *)

Lemma triple_bind {A B} (P : State -> Prop) (c : M A) (k : A -> M B)
  (Q : A -> State -> Prop) (R : B -> State -> Prop)
  (E : PyExc -> State -> Prop) :
  triple P c Q E -> (forall a, triple (Q a) (k a) R E) ->
  triple P (bind c k) R E.
Proof.
  intros Hc Hk s Hs. unfold bind. specialize (Hc s Hs).
  destruct (c s) as [[a|e] s']; [now apply Hk|exact Hc].
Qed.

Lemma triple_lift {A} (P : State -> Prop) (o : Outcome A)
  (Q : A -> State -> Prop) (E : PyExc -> State -> Prop) :
  (forall s, P s ->
     match o with Return a => Q a s | Raise e => E e s end) ->
  triple P (lift o) Q E.
Proof. intros H s Hs. unfold lift. specialize (H s Hs). now destruct o. Qed.

Lemma triple_assume {A} (X : Prop) (P : State -> Prop) (c : M A)
  (Q : A -> State -> Prop) (E : PyExc -> State -> Prop) :
  (X -> triple P c Q E) -> triple (fun s => X /\ P s) c Q E.
Proof. intros H s [HX HP]. now apply H. Qed.

Section OpenFigure.
Variable w : World.
Variables (n : nat) (fs : list Figure).
Variable E : PyExc -> State -> Prop.
Hypothesis leak : forall e s, open_on_top n fs s -> E e s.

Lemma draw_open (a : Artist) :
  triple (open_on_top n fs) (draw w a) (fun _ => open_on_top n fs) E.
Proof.
  intros s Hs. unfold draw.
  destruct (mpl_fault w (CallDraw a)); [now apply leak|].
  destruct Hs as (f & Hf & Hn). cbn [figures log_call]. rewrite Hf.
  exists (add_artist a f). split; reflexivity || exact Hn.
Qed.

Lemma savefig_open (name : string) (dpi : Z) (bbox fc : string) :
  triple (open_on_top n fs) (savefig w name dpi bbox fc)
         (fun _ => open_on_top n fs) E.
Proof.
  intros s Hs. unfold savefig.
  destruct (mpl_fault w (CallSavefig name)); [now apply leak|].
  destruct Hs as (f & Hf & Hn). cbn [figures log_call]. rewrite Hf.
  now exists f.
Qed.

Lemma get_facecolor_open (fig : nat) :
  triple (open_on_top n fs) (get_facecolor fig)
         (fun _ => open_on_top n fs) E.
Proof. intros s Hs. exact Hs. Qed.

Lemma print_open (args : list string) :
  triple (open_on_top n fs) (print args) (fun _ => open_on_top n fs) E.
Proof. intros s Hs. exact Hs. Qed.

Lemma lift_open {A} (o : Outcome A) :
  triple (open_on_top n fs) (lift o) (fun _ => open_on_top n fs) E.
Proof. apply triple_lift. intros s Hs. destruct o; [exact Hs|now apply leak]. Qed.

Lemma ret_open {A} (a : A) :
  triple (open_on_top n fs) (ret a) (fun _ => open_on_top n fs) E.
Proof. intros s Hs. exact Hs. Qed.

End OpenFigure.

Lemma close_fresh (fs : list Figure) (E : PyExc -> State -> Prop) :
  triple (open_on_top (next_num fs) fs) (close (next_num fs))
         (fun _ s => figures s = fs) E.
Proof.
  intros s (f & Hf & Hn). unfold close. cbn [figures set_figures log_call].
  rewrite Hf. cbn [List.filter]. rewrite Hn, Nat.eqb_refl. cbn [negb].
  apply filter_fresh.
Qed.

(** How a run of [plot_tile_on_map] can end, as seen in the table of open
    figures: on return it is as before; on an exception it is as before
    only if the figure was never created, and otherwise the new figure is
    still open. *)
Lemma plot_tile_on_map_figures w img lat lon zoom ts save fs :
  triple (fun s => figures s = fs)
    (plot_tile_on_map w img lat lon zoom ts save)
    (fun _ s' => figures s' = fs)
    (fun _ s' =>
       (figures s' = fs
        /\ (raises (delta_of (A:=float64) zoom)
            \/ is_Some (mpl_fault w CallSubplots)))
       \/ open_on_top (next_num fs) fs s').
Proof.
  set (E := fun (_ : PyExc) s' =>
       (figures s' = fs
        /\ (raises (delta_of (A:=float64) zoom)
            \/ is_Some (mpl_fault w CallSubplots)))
       \/ open_on_top (next_num fs) fs s').
  assert (leak : forall e s, open_on_top (next_num fs) fs s -> E e s)
    by (intros e s H; now right).
  unfold plot_tile_on_map.
  apply triple_bind with (Q := fun _ s => figures s = fs).
  { apply triple_lift. intros s Hs.
    destruct (delta_of zoom) as [d|e] eqn:Hd; [exact Hs|].
    left. split; [exact Hs|]. left. apply raises_Raise. }
  intros d.
  apply triple_bind with (Q := fun _ s => figures s = fs).
  { intros s Hs. exact Hs. }
  intros _.
  apply triple_bind
    with (Q := fun fig s => fig = next_num fs /\ open_on_top fig fs s).
  { intros s Hs. unfold subplots.
    destruct (mpl_fault w CallSubplots) as [e|] eqn:Hf.
    - left. split; [exact Hs|]. right. eauto.
    - cbn [figures set_figures log_call]. rewrite Hs. split; [reflexivity|].
      eexists. split; reflexivity. }
  intros fig. apply triple_assume. intros ->.
  repeat (apply triple_bind with (Q := fun _ => open_on_top (next_num fs) fs);
          [first [apply draw_open|apply lift_open]; exact leak|intros ?]).
  apply triple_bind with (Q := fun _ => open_on_top (next_num fs) fs);
    [|intros _; apply close_fresh].
  destruct save; [|now apply ret_open].
  apply triple_bind with (Q := fun _ => open_on_top (next_num fs) fs);
    [now apply get_facecolor_open|intros fc].
  apply triple_bind with (Q := fun _ => open_on_top (next_num fs) fs);
    [now apply savefig_open|intros _].
  now apply print_open.
Qed.

(** C9, as the code has it.  A run that returns has closed the figure it
    created: the open figures are those from before.  A run that raises
    never closes it: if the exception comes after [plt.subplots]
    succeeded, the new figure stays open. *)
Theorem figure_closed_on_return (w : World) (img : Image)
  (lat lon : float64) (zoom : Z) (ts : PyVal) (save : bool) (s : State) :
  let run := plot_tile_on_map w img lat lon zoom ts save s in
  (fst run = Return tt -> figures (snd run) = figures s)
  /\ (forall (e : PyExc) (d : float64),
        fst run = Raise e ->
        delta_of zoom = Return d ->
        mpl_fault w CallSubplots = None ->
        open_on_top (next_num (figures s)) (figures s) (snd run)).
Proof.
  intros run.
  pose proof (plot_tile_on_map_figures w img lat lon zoom ts save
                (figures s) s eq_refl) as H.
  fold run in H. destruct run as [[[]|e] s']; cbn [fst snd].
  - split; [intros _; exact H|intros ? ? [=]].
  - split; [intros [=]|]. intros e' d _ Hd Hf.
    destruct H as [(_ & [[e0 He0]|[e0 He0]])|H]; [congruence|congruence|exact H].
Qed.

(** C9, as stated, fails: the timestamp of the first second of the year
    10000 is refused when the title is built, after the figure has been
    created; the run raises and leaves figure 1 open. *)
Lemma figure_left_open_on_exception :
  let run :=
    plot_tile_on_map world_ok (mkImage "RGBA" 256 256 []) LAT LON ZOOM
      (PyInt 253402300800) true initial in
  fst run = Raise (mkExc ValueError "year 10000 is out of range")
  /\ map fig_num (figures (snd run)) = [1%nat]
  /\ figures initial = []
  /\ ~ In (CallClose 1) (calls (snd run)).
Proof.
  cbv zeta. split; [vm_compute; reflexivity|].
  split; [vm_compute; reflexivity|]. split; [reflexivity|].
  vm_compute. intuition discriminate.
Qed.

Lemma figure_closed_on_return_witness :
  figures (snd (plot_tile_on_map world_ok (mkImage "RGBA" 256 256 []) LAT LON
                  ZOOM (PyInt 1700000000) true initial)) = [].
Proof.
  refine (proj1 (figure_closed_on_return world_ok (mkImage "RGBA" 256 256 [])
                   LAT LON ZOOM (PyInt 1700000000) true initial) _).
  vm_compute. reflexivity.
Defined.

(** * Further properties of the script *)

(** ** [get_latest_timestamp]: how it fails, what it touches *)

(** X1. The three ways the fetch fails before the document is read, in
    the order the code meets them: an exception of [requests.get] is
    raised as it is; a status from 400 to 599 raises an [HTTPError] whose
    message names the status, the reason and the URL, the body not being
    looked at; with any other status a body that is not JSON raises the
    decoder's exception. *)
Theorem get_latest_timestamp_failures (w : World) (s : State) :
  let out := fst (get_latest_timestamp w s) in
  (forall e, http w API_URL 10 = Raise e -> out = Raise e)
  /\ (forall r,
        http w API_URL 10 = Return r -> 400 <= status_code r < 600 ->
        out = Raise (mkExc HTTPError
                       (pretty (status_code r) +:+ " "
                          +:+ (if status_code r <? 500 then "Client"
                               else "Server")
                          +:+ " Error: " +:+ reason r
                          +:+ " for url: " +:+ url r)))
  /\ (forall r e,
        http w API_URL 10 = Return r ->
        status_code r < 400 \/ 600 <= status_code r ->
        json_body r = Raise e -> out = Raise e).
Proof.
  intros out. unfold out. rewrite get_latest_timestamp_run. cbn [fst].
  unfold timestamp_outcome. repeat split.
  - intros e ->. reflexivity.
  - intros r -> Hst. cbn [obind]. unfold raise_for_status.
    destruct (Z.ltb_spec (status_code r) 500) as [Hlt|Hge].
    + rewrite (proj2 (Z.leb_le 400 _)) by lia. reflexivity.
    + rewrite andb_false_r.
      rewrite (proj2 (Z.leb_le 500 _)) by lia.
      rewrite (proj2 (Z.ltb_lt _ 600)) by lia. reflexivity.
  - intros r e -> Hst Hbody. cbn [obind]. unfold raise_for_status.
    destruct Hst as [Hst|Hst].
    + rewrite (proj2 (Z.leb_gt 400 _)) by lia. cbn [andb].
      rewrite (proj2 (Z.leb_gt 500 _)) by lia. cbn [andb obind].
      now rewrite Hbody.
    + rewrite (proj2 (Z.ltb_ge _ 500)) by lia. rewrite andb_false_r.
      rewrite (proj2 (Z.ltb_ge _ 600)) by lia. rewrite andb_false_r.
      cbn [obind]. now rewrite Hbody.
Qed.

Lemma get_latest_timestamp_failures_witness :
  fst (get_latest_timestamp world_metadata_500 initial)
  = Raise (mkExc HTTPError
             "500 Server Error: Internal Server Error for url: https://api.rainviewer.com/public/weather-maps.json").
Proof.
  refine (proj1 (proj2 (get_latest_timestamp_failures world_metadata_500
                          initial))
                (metadata_response 500 "Internal Server Error"
                   (Raise not_json)) eq_refl _).
  cbn. lia.
Defined.

(** X2. A last frame without a [time] key makes the fetch raise
    [KeyError: 'time']; a last frame that is not an object makes it
    raise a [TypeError].  Earlier frames are never looked at. *)
Theorem get_latest_timestamp_frame_without_time (w : World) (s : State)
  (r : Response) (body : PyVal) (l : list PyVal) (frame : PyVal) :
  http w API_URL 10 = Return r ->
  raise_for_status r = Return tt ->
  json_body r = Return body ->
  radar_past body = Some (l ++ [frame]) ->
  time_field frame = None ->
  let out := fst (get_latest_timestamp w s) in
  (forall fd, frame = PyDict fd -> out = Raise (mkExc KeyError "'time'"))
  /\ ((forall fd, frame <> PyDict fd) ->
      exists e, out = Raise e /\ exc_class e = TypeError).
Proof.
  intros Hr Hs Hb Hpast Htime out. unfold out.
  rewrite get_latest_timestamp_run. cbn [fst].
  rewrite (timestamp_outcome_body w r body Hr Hs Hb).
  unfold radar_past in Hpast. destruct body; try discriminate.
  cbn [getitem_str].
  destruct (dict_lookup d "radar") as [[]|]; try discriminate.
  cbn [obind getitem_str].
  destruct (dict_lookup d0 "past") as [[]|]; try discriminate.
  injection Hpast as ->. cbn [obind]. rewrite getitem_int_last, last_snoc.
  cbn [obind]. split.
  - intros fd ->. cbn in Htime. cbn [getitem_str]. now rewrite Htime.
  - intros Hnd. destruct frame; cbn; try (eexists; split; reflexivity).
    now destruct (Hnd d1).
Qed.

Lemma get_latest_timestamp_frame_without_time_witness :
  fst (get_latest_timestamp world_without_time initial)
  = Raise (mkExc KeyError "'time'").
Proof.
  refine (proj1 (get_latest_timestamp_frame_without_time world_without_time
                   initial
                   (metadata_response 200 "OK" (Return document_without_time))
                   document_without_time
                   [PyInt 7] (PyDict [("path", PyStr "/x")])
                   eq_refl eq_refl eq_refl eq_refl eq_refl) _ eq_refl).
Defined.

(** X3. Whatever the outcome, the fetch sends exactly one request, to the
    metadata URL with a timeout of 10 seconds, prints nothing and leaves
    the plotting state and the files alone. *)
Theorem get_latest_timestamp_effects (w : World) (s : State) :
  let s' := snd (get_latest_timestamp w s) in
  requests s' = requests s ++ [(API_URL, 10)]
  /\ stdout s' = stdout s
  /\ calls s' = calls s
  /\ rcParams s' = rcParams s
  /\ figures s' = figures s
  /\ files s' = files s.
Proof.
  cbv zeta. rewrite get_latest_timestamp_run. cbn [snd].
  repeat split; reflexivity.
Qed.

(** ** [get_radar_tile_by_latlon]: the header, the transport, the URL *)

Lemma headers_get_missing (h : list (string * string)) (key default : string) :
  (forall k v, In (k, v) h -> lower k <> lower key) ->
  headers_get h key default = default.
Proof.
  induction h as [|[k v] h IH]; intros Hno; [reflexivity|].
  cbn [headers_get].
  destruct (String.eqb_spec (lower k) (lower key)) as [Heq|_].
  - now destruct (Hno k v (or_introl eq_refl)).
  - apply IH. intros k' v' Hin. apply (Hno k' v'). now right.
Qed.

(** X4. A response that carries no [Content-Type] header, in whatever
    letter case, is not taken for an image even with status 200: the
    function returns [None] and reports the status. *)
Theorem tile_fetch_without_content_type (w : World) (s : State)
  (ts z la lo c tsz sm sn : PyVal) (r : Response) :
  http w (tile_url ts z la lo c tsz sm sn) 15 = Return r ->
  (forall k v, In (k, v) (headers r) -> lower k <> "content-type") ->
  let run := get_radar_tile_by_latlon w ts z la lo c tsz sm sn s in
  fst run = Return None
  /\ last (stdout (snd run))
     = Some ("Failed to load tile. Status: " +:+ pretty (status_code r)).
Proof.
  intros Hr Hno run. unfold run. rewrite get_radar_tile_run. cbn [fst snd].
  unfold tile_outcome, tile_state. rewrite Hr. cbn [obind].
  assert (Hnot : is_image_200 r = false).
  { unfold is_image_200. rewrite headers_get_missing by exact Hno.
    apply andb_false_r. }
  rewrite Hnot. split; [reflexivity|].
  unfold printed. cbn [print snd stdout String.concat]. apply last_snoc.
Qed.

Lemma tile_fetch_without_content_type_witness :
  fst (get_radar_tile_by_latlon world_no_content_type (PyInt 1700000000)
         (PyInt ZOOM) (PyFloat LAT) (PyFloat LON) default_color
         default_tile_size default_smooth default_snow initial)
  = Return None.
Proof.
  refine (proj1 (tile_fetch_without_content_type world_no_content_type
                   initial (PyInt 1700000000) (PyInt ZOOM) (PyFloat LAT)
                   (PyFloat LON) default_color default_tile_size
                   default_smooth default_snow bare_response _ _)).
  - vm_compute. reflexivity.
  - intros k v [[= <- _]|[[= <- _]|[]]]; vm_compute; discriminate.
Defined.

(** X5. An exception of [requests.get] is raised as it is, after the URL
    has been announced: one line printed, one request sent, the decoder
    not reached. *)
Theorem tile_fetch_transport_error (w : World) (s : State)
  (ts z la lo c tsz sm sn : PyVal) (e : PyExc) :
  let url := tile_url ts z la lo c tsz sm sn in
  http w url 15 = Raise e ->
  let run := get_radar_tile_by_latlon w ts z la lo c tsz sm sn s in
  fst run = Raise e
  /\ stdout (snd run) = stdout s ++ ["Fetching: " +:+ url]
  /\ requests (snd run) = requests s ++ [(url, 15)].
Proof.
  intros url He run. unfold run. rewrite get_radar_tile_run. fold url.
  cbn [fst snd]. unfold tile_outcome, tile_state. rewrite He.
  repeat split; reflexivity.
Qed.

Lemma tile_fetch_transport_error_witness :
  fst (get_radar_tile_by_latlon world_tile_timeout (PyInt 1700000000)
         (PyInt ZOOM) (PyFloat LAT) (PyFloat LON) default_color
         default_tile_size default_smooth default_snow initial)
  = Raise tile_timeout.
Proof.
  refine (proj1 (tile_fetch_transport_error world_tile_timeout initial
                   (PyInt 1700000000) (PyInt ZOOM) (PyFloat LAT)
                   (PyFloat LON) default_color default_tile_size
                   default_smooth default_snow tile_timeout _)).
  vm_compute. reflexivity.
Defined.


Lemma string_length_app (s1 s2 : string) :
  String.length (s1 +:+ s2) = (String.length s1 + String.length s2)%nat.
Proof.
  induction s1 as [|c s1 IH]; [reflexivity|].
  change (S (String.length (s1 +:+ s2))
          = S (String.length s1 + String.length s2)). now f_equal.
Qed.

Lemma string_app_inj_r (s1 s2 t : string) : s1 +:+ t = s2 +:+ t -> s1 = s2.
Proof.
  revert s2. induction s1 as [|c s1 IH]; intros [|c' s2] H.
  - reflexivity.
  - apply (f_equal String.length) in H.
    change (String.length t = S (String.length (s2 +:+ t))) in H.
    rewrite string_length_app in H. lia.
  - apply (f_equal String.length) in H.
    change (S (String.length (s1 +:+ t)) = String.length t) in H.
    rewrite string_length_app in H. lia.
  - cbn [String.append] in H. injection H as -> H. f_equal. now apply IH.
Qed.

(** X7. For integer timestamps, the other arguments being the same, the
    URL tells the frames apart: different timestamps never share a URL. *)
Theorem tile_url_distinct_timestamps (t1 t2 : Z)
  (z la lo c tsz sm sn : PyVal) :
  t1 <> t2 ->
  tile_url (PyInt t1) z la lo c tsz sm sn
  <> tile_url (PyInt t2) z la lo c tsz sm sn.
Proof.
  intros Hne Heq. apply Hne. unfold tile_url in Heq.
  apply (inj (String.app _)) in Heq. cbn [py_str py_repr] in Heq.
  apply string_app_inj_r in Heq. now apply (inj pretty) in Heq.
Qed.

Lemma tile_url_distinct_timestamps_witness :
  configured_url (PyInt 1699999400) <> configured_url (PyInt 1700000000).
Proof.
  refine (tile_url_distinct_timestamps 1699999400 1700000000 _ _ _ _ _ _ _ _).
  lia.
Defined.

(** ** [plot_tile_on_map] in any world *)

Section Plotting.
Variable w : World.
Variable s0 : State.
Variable E : PyExc -> State -> Prop.
Hypothesis while_drawing : forall e s, drawing s0 s -> E e s.

Lemma draw_drawing (a : Artist) :
  triple (drawing s0) (draw w a) (fun _ => drawing s0) E.
Proof.
  intros s Hs. unfold draw.
  destruct (mpl_fault w (CallDraw a)); [now apply while_drawing|].
  destruct Hs as (? & ? & ? & ? & Hfig). cbn [figures log_call].
  destruct (figures s) as [|f fs] eqn:Ef; [now destruct Hfig|].
  repeat split; assumption || discriminate.
Qed.

Lemma lift_drawing {A} (o : Outcome A) (Q : A -> State -> Prop) :
  (forall a s, o = Return a -> drawing s0 s -> Q a s) ->
  triple (drawing s0) (lift o) Q E.
Proof.
  intros HQ. apply triple_lift. intros s Hs.
  destruct o; [now apply HQ|now apply while_drawing].
Qed.

Lemma get_facecolor_drawing (fig : nat) :
  triple (drawing s0) (get_facecolor fig) (fun _ => drawing s0) E.
Proof. intros s Hs. exact Hs. Qed.

Lemma savefig_drawing (name : string) (dpi : Z) (bbox fc : string) :
  triple (drawing s0) (savefig w name dpi bbox fc)
    (fun _ s => stdout s = stdout s0 /\ requests s = requests s0
                /\ rcParams s = dark_theme (rcParams s0)
                /\ exists p, files s = <[name := p]> (files s0))
    E.
Proof.
  intros s Hs. unfold savefig.
  destruct (mpl_fault w (CallSavefig name)); [now apply while_drawing|].
  destruct Hs as (? & ? & Hfiles & ? & Hfig). cbn [figures log_call].
  destruct (figures s) as [|f fs] eqn:Ef; [now destruct Hfig|].
  cbn [set_files stdout requests rcParams files log_call].
  repeat split; try assumption. rewrite Hfiles. eauto.
Qed.

End Plotting.

(** How a run of [plot_tile_on_map] can end, in any world: see
    [plot_returned] and [plot_raised]. *)
Lemma plot_tile_on_map_outcomes w img lat lon zoom ts save s0 :
  triple (fun s => s = s0)
    (plot_tile_on_map w img lat lon zoom ts save)
    (fun _ => plot_returned s0 zoom ts save)
    (fun _ => plot_raised s0 zoom).
Proof.
  set (E := fun (_ : PyExc) => plot_raised s0 zoom).
  assert (HE : forall e s, drawing s0 s -> E e s).
  { intros e s (? & ? & ? & ? & _). unfold E, plot_raised. auto 6. }
  unfold plot_tile_on_map.
  apply triple_bind
    with (Q := fun (d : float64) s => delta_of zoom = Return d /\ s = s0).
  { apply triple_lift. intros s ->.
    destruct (delta_of zoom) as [d|e] eqn:Hd; [now split|].
    unfold plot_raised. repeat split; try reflexivity.
    left. split; [now exists e|reflexivity]. }
  intros d. apply triple_assume. intros Hd.
  apply triple_bind
    with (Q := fun _ s => stdout s = stdout s0 /\ requests s = requests s0
                          /\ files s = files s0
                          /\ rcParams s = dark_theme (rcParams s0)).
  { intros s ->. cbn. repeat split; reflexivity. }
  intros ?; cbv beta.
  apply triple_bind with (Q := fun _ => drawing s0).
  { intros s (Ho & Hr & Hf & Hrc). unfold subplots.
    destruct (mpl_fault w CallSubplots).
    - unfold E, plot_raised. cbn [log_call stdout requests files rcParams].
      repeat split; try assumption. now right.
    - unfold drawing.
      cbn [set_figures log_call stdout requests files rcParams figures].
      repeat split; assumption || discriminate. }
  intros fig.
  do 10 (apply triple_bind with (Q := fun _ => drawing s0);
         [apply draw_drawing; exact HE|intros ?; cbv beta]).
  apply triple_bind
    with (Q := fun dt s => utcfromtimestamp ts = Return dt /\ drawing s0 s).
  { apply lift_drawing; [exact HE|]. intros dt s Hdt Hs. now split. }
  intros dt. apply triple_assume. intros Hdt.
  apply triple_bind with (Q := fun _ => drawing s0);
    [apply draw_drawing; exact HE|intros ?; cbv beta].
  apply triple_bind
    with (Q := fun _ => done_plotting s0 save (output_filename dt zoom)).
  - destruct save.
    + apply triple_bind with (Q := fun _ => drawing s0);
        [apply get_facecolor_drawing|intros fc].
      eapply triple_bind; [apply savefig_drawing; exact HE|intros ?; cbv beta].
      intros s (Ho & Hr & Hrc & p & Hf). unfold done_plotting.
      cbn [print stdout requests rcParams files String.concat].
      rewrite Ho. eauto 6.
    + intros s (? & ? & ? & ? & _). unfold ret, done_plotting. auto.
  - intros ? s (Hr & Hrc & Hsave). unfold close, plot_returned.
    split; [eauto|]. exists dt. split; [exact Hdt|].
    unfold done_plotting.
    cbn [set_figures log_call stdout requests rcParams files].
    auto.
Qed.

Lemma plot_outcome_cases w img lat lon zoom ts save s :
  let run := plot_tile_on_map w img lat lon zoom ts save s in
  (fst run = Return tt /\ plot_returned s zoom ts save (snd run))
  \/ (exists e, fst run = Raise e /\ plot_raised s zoom (snd run)).
Proof.
  intros run.
  pose proof (plot_tile_on_map_outcomes w img lat lon zoom ts save s s
                eq_refl) as H.
  fold run in H. destruct run as [[[]|e] s']; cbn [fst snd]; eauto.
Qed.

(** X8. Called with [save] false, the function writes no file, prints
    nothing and sends nothing, in any world and whether it returns or
    raises. *)
Theorem plot_without_save_is_silent (w : World) (img : Image)
  (lat lon : float64) (zoom : Z) (ts : PyVal) (s : State) :
  let s' := snd (plot_tile_on_map w img lat lon zoom ts false s) in
  files s' = files s /\ stdout s' = stdout s /\ requests s' = requests s.
Proof.
  intros s'. unfold s'.
  destruct (plot_outcome_cases w img lat lon zoom ts false s)
    as [(_ & _ & dt & _ & Hr & _ & Ho & Hf)|(e & _ & Ho & Hr & Hf & _)];
    auto.
Qed.

(** X9. A run touches at most one file.  Either the directory is as it
    was, or the run was a saving one that returned, and then exactly the
    file named after the timestamp and the zoom was written; every other
    name keeps what it had. *)
Theorem plot_touches_one_file (w : World) (img : Image)
  (lat lon : float64) (zoom : Z) (ts : PyVal) (save : bool) (s : State) :
  let run := plot_tile_on_map w img lat lon zoom ts save s in
  (files (snd run) = files s
   \/ (save = true /\ fst run = Return tt
       /\ exists dt p,
            utcfromtimestamp ts = Return dt
            /\ files (snd run) = <[output_filename dt zoom := p]> (files s)))
  /\ (forall name,
        (forall dt, utcfromtimestamp ts = Return dt ->
                    name <> output_filename dt zoom) ->
        files (snd run) !! name = files s !! name).
Proof.
  intros run. unfold run.
  destruct (plot_outcome_cases w img lat lon zoom ts save s)
    as [(Hret & _ & dt & Hdt & _ & _ & Hsave)|(e & _ & _ & _ & Hf & _)].
  - destruct save.
    + destruct Hsave as (_ & p & Hp). split; [right; eauto 8|].
      intros name Hname. rewrite Hp.
      apply lookup_insert_ne. intros Heq. now apply (Hname dt Hdt).
    + destruct Hsave as (_ & Hf). split; [now left|].
      intros name _. now rewrite Hf.
  - split; [now left|]. intros name _. now rewrite Hf.
Qed.

(** X10. The theme outlives the call.  Once [delta] has been computed,
    [rcParams] holds the four theme entries when the function is left,
    by return or by exception alike, and every other entry is as
    before. *)
Theorem plot_sets_theme (w : World) (img : Image) (lat lon : float64)
  (zoom : Z) (ts : PyVal) (save : bool) (s : State) (d : float64) :
  delta_of zoom = Return d ->
  let rc := rcParams (snd (plot_tile_on_map w img lat lon zoom ts save s)) in
  rc !! "axes.facecolor" = Some "#0e1111"
  /\ rc !! "text.color" = Some "white"
  /\ rc !! "xtick.color" = Some "white"
  /\ rc !! "ytick.color" = Some "white"
  /\ (forall key,
        key <> "axes.facecolor" -> key <> "text.color" ->
        key <> "xtick.color" -> key <> "ytick.color" ->
        rc !! key = rcParams s !! key).
Proof.
  intros Hd rc.
  assert (Hrc : rc = dark_theme (rcParams s)).
  { unfold rc.
    destruct (plot_outcome_cases w img lat lon zoom ts save s)
      as [(_ & _ & dt & _ & _ & Hrc & _)
         |(e & _ & _ & _ & _ & [[[e' He'] _]|Hrc])];
      [exact Hrc|congruence|exact Hrc]. }
  rewrite Hrc. unfold dark_theme.
  repeat split; try (now simplify_map_eq).
  intros key H1 H2 H3 H4. now rewrite !lookup_insert_ne.
Qed.

Lemma plot_sets_theme_witness :
  rcParams (snd (plot_tile_on_map world_disk_full (mkImage "RGBA" 1 1 [])
                   LAT LON ZOOM (PyInt 1700000000) true initial))
    !! "text.color" = Some "white".
Proof.
  refine (proj1 (proj2 (plot_sets_theme world_disk_full
                          (mkImage "RGBA" 1 1 []) LAT LON ZOOM
                          (PyInt 1700000000) true initial
                          (Binary64.literal 28125 4) _))).
  vm_compute. reflexivity.
Defined.

(** X11. In a world where no plotting call fails, the function returns
    exactly when the zoom yields a [delta] and the timestamp converts to
    a date: these are the only two things in its own code that raise. *)
Theorem plot_returns_iff (w : World) (img : Image) (lat lon : float64)
  (zoom : Z) (ts : PyVal) (save : bool) (s : State) :
  (forall c, mpl_fault w c = None) ->
  fst (plot_tile_on_map w img lat lon zoom ts save s) = Return tt
  <-> (exists d : float64, delta_of zoom = Return d)
      /\ (exists dt, utcfromtimestamp ts = Return dt).
Proof.
  intros Hw. split.
  - intros Hret.
    destruct (plot_outcome_cases w img lat lon zoom ts save s)
      as [(_ & Hd & dt & Hdt & _)|(e & He & _)]; [eauto|congruence].
  - intros [[d Hd] [dt Hdt]]. now rewrite (plot_run_ok _ _ _ _ _ _ _ _ d dt).
Qed.

Lemma plot_returns_iff_witness :
  fst (plot_tile_on_map world_ok (mkImage "RGBA" 1 1 []) LAT LON ZOOM
         (PyInt 1700000000) false initial) = Return tt.
Proof.
  refine (proj2 (plot_returns_iff world_ok (mkImage "RGBA" 1 1 []) LAT LON
                   ZOOM (PyInt 1700000000) false initial _) _).
  - intros c. reflexivity.
  - split; eexists; vm_compute; reflexivity.
Defined.

Lemma plot_bad_timestamp_run w img lat lon zoom ts save s d e :
  (forall c, mpl_fault w c = None) ->
  delta_of zoom = Return d ->
  utcfromtimestamp ts = Raise e ->
  plot_tile_on_map w img lat lon zoom ts save s
  = (Raise e, stopped_before_title img (extent_of lat lon d) s).
Proof.
  intros Hw Hd Hts. destruct s as [out req cl rc figs fl].
  unfold plot_tile_on_map. rewrite Hd, Hts.
  do 13 run_step Hw. unfold bind at 1. unfold lift at 1.
  unfold stopped_before_title, dark_theme.
  cbn [fst snd figures calls files stdout requests rcParams
       rendered_before_title map app foldl].
  rewrite <- !app_assoc. reflexivity.
Qed.

(** X12. A timestamp that does not convert to a date is found out late:
    with no plotting call failing, the function raises the conversion's
    exception after it has created the figure and drawn the ten artists
    that precede the title; the figure is left open, and nothing is saved
    or printed. *)
Theorem plot_bad_timestamp (w : World) (img : Image) (lat lon : float64)
  (zoom : Z) (ts : PyVal) (save : bool) (s : State)
  (d : float64) (e : PyExc) :
  (forall c, mpl_fault w c = None) ->
  delta_of zoom = Return d ->
  utcfromtimestamp ts = Raise e ->
  let run := plot_tile_on_map w img lat lon zoom ts save s in
  fst run = Raise e
  /\ figures (snd run)
     = mkFigure (next_num (figures s)) (10, 10) 300 "#0e1111"
                (rendered_before_title img (extent_of lat lon d))
       :: figures s
  /\ calls (snd run)
     = calls s ++ [CallRcParamsUpdate; CallSubplots]
             ++ map CallDraw (rendered_before_title img (extent_of lat lon d))
  /\ files (snd run) = files s
  /\ stdout (snd run) = stdout s.
Proof.
  intros Hw Hd Hts run. unfold run.
  rewrite (plot_bad_timestamp_run w img lat lon zoom ts save s d e Hw Hd Hts).
  repeat split; reflexivity.
Qed.

Lemma plot_bad_timestamp_witness :
  fst (plot_tile_on_map world_ok (mkImage "RGBA" 1 1 []) LAT LON ZOOM
         (PyStr "1700000000") true initial)
  = Raise (mkExc TypeError "'str' object cannot be interpreted as an integer").
Proof.
  refine (proj1 (plot_bad_timestamp world_ok (mkImage "RGBA" 1 1 []) LAT LON
                   ZOOM (PyStr "1700000000") true initial
                   (Binary64.literal 28125 4) _ _ _ _)).
  - intros c. reflexivity.
  - vm_compute. reflexivity.
  - reflexivity.
Defined.

(** X13. A saving run that returns has saved: in any world, if the
    function returns with [save] true, the file named after the timestamp
    and the zoom exists and the last line printed reports that name; if
    it raises instead, it has printed nothing. *)
Theorem plot_returns_saved (w : World) (img : Image) (lat lon : float64)
  (zoom : Z) (ts : PyVal) (s : State) :
  let run := plot_tile_on_map w img lat lon zoom ts true s in
  (fst run = Return tt ->
     exists dt,
       utcfromtimestamp ts = Return dt
       /\ is_Some (files (snd run) !! output_filename dt zoom)
       /\ last (stdout (snd run))
          = Some ("Saved image as " +:+ output_filename dt zoom))
  /\ (forall e, fst run = Raise e -> stdout (snd run) = stdout s).
Proof.
  intros run. unfold run.
  destruct (plot_outcome_cases w img lat lon zoom ts true s)
    as [(Hret & _ & dt & Hdt & _ & _ & Ho & p & Hp)|(e & He & Ho & _)].
  - split; [|intros e He; congruence]. intros _. exists dt.
    split; [exact Hdt|]. rewrite Hp, Ho, lookup_insert_eq, last_snoc. eauto.
  - split; [intros Hret; congruence|]. intros _ _. exact Ho.
Qed.

(** ** The main block in any world *)

(** The state in which the main block calls [plot_tile_on_map]. *)
Lemma main_plot_state w s ts :
  let s2 := tile_state w (configured_url ts)
              (log_request API_URL 10
                 (printed "Fetching latest radar image..." s)) in
  calls s2 = calls s /\ rcParams s2 = rcParams s
  /\ figures s2 = figures s /\ files s2 = files s
  /\ requests s2 = requests s ++ [(API_URL, 10); (configured_url ts, 15)].
Proof.
  cbv zeta. unfold tile_state, printed.
  destruct (http w (configured_url ts) 15) as [r|e];
    [destruct (is_image_200 r)|];
    cbn [print snd stdout requests calls rcParams figures files
         log_request String.concat];
    rewrite <- ?app_assoc; repeat split; reflexivity.
Qed.

(** X14. The main block never raises: in every world and from every
    state it ends normally, whichever step failed. *)
Theorem main_never_raises (w : World) (s : State) :
  fst (main w s) = Return tt.
Proof.
  rewrite main_run. cbv zeta.
  destruct (timestamp_outcome w) as [ts|e]; [|reflexivity].
  destruct (tile_outcome w (configured_url ts)) as [[img|]|e];
    try reflexivity.
  unfold try_except.
  destruct (plot_tile_on_map w img LAT LON ZOOM ts AUTO_SAVE _)
    as [[[]|e] s']; reflexivity.
Qed.

(** X15. The last line the main block prints tells how the run ended,
    and it is one of three: the name of the image saved, the notice that
    there is no image, or the message of the exception caught. *)
Theorem main_last_line (w : World) (s : State) :
  exists line,
    last (stdout (snd (main w s))) = Some line
    /\ ((exists ts dt,
           fst (get_latest_timestamp w s) = Return ts
           /\ utcfromtimestamp ts = Return dt
           /\ line = "Saved image as " +:+ output_filename dt ZOOM)
        \/ line = "No image available."
        \/ exists e, line = "Error: " +:+ exc_str e).
Proof.
  rewrite main_run, get_latest_timestamp_run. cbn [fst]. cbv zeta.
  destruct (timestamp_outcome w) as [ts|e].
  2:{ eexists. split; [apply last_snoc|]. right. right. eauto. }
  destruct (tile_outcome w (configured_url ts)) as [[img|]|e].
  - unfold try_except.
    match goal with
    | |- context [plot_tile_on_map w img LAT LON ZOOM ts AUTO_SAVE ?s2] =>
        destruct (plot_outcome_cases w img LAT LON ZOOM ts AUTO_SAVE s2)
          as [(Hret & _ & dt & Hdt & _ & _ & Ho & _)|(e & He & _)];
        destruct (plot_tile_on_map w img LAT LON ZOOM ts AUTO_SAVE s2)
          as [[[]|e'] s']; cbn [fst snd] in *; try discriminate
    end.
    + eexists. split; [rewrite Ho; apply last_snoc|]. left. eauto.
    + eexists. split; [apply last_snoc|]. right. right. eauto.
  - eexists. split; [apply last_snoc|]. right. now left.
  - eexists. split; [apply last_snoc|]. right. right. eauto.
Qed.

(** X16. The main block sends the metadata request first and at most one
    more: when the timestamp fetch returns, the second request goes to
    the tile URL built from the returned timestamp and the configured
    zoom and point; no later step sends anything. *)
Theorem main_requests (w : World) (s : State) :
  let s' := snd (main w s) in
  (forall e, fst (get_latest_timestamp w s) = Raise e ->
     requests s' = requests s ++ [(API_URL, 10)])
  /\ (forall ts, fst (get_latest_timestamp w s) = Return ts ->
        requests s'
        = requests s ++ [(API_URL, 10); (configured_url ts, 15)]).
Proof.
  cbv zeta. rewrite main_run, get_latest_timestamp_run. cbn [fst]. cbv zeta.
  split.
  - intros e ->. unfold printed.
    cbn [print snd requests log_request]. reflexivity.
  - intros ts ->.
    pose proof (main_plot_state w s ts) as (_ & _ & _ & _ & Hreq).
    cbv zeta in Hreq.
    destruct (tile_outcome w (configured_url ts)) as [[img|]|e];
      try (unfold printed at 1; cbn [print snd requests]; exact Hreq).
    unfold try_except.
    match goal with
    | |- context [plot_tile_on_map w img LAT LON ZOOM ts AUTO_SAVE ?s2] =>
        destruct (plot_outcome_cases w img LAT LON ZOOM ts AUTO_SAVE s2)
          as [(Hret & _ & dt & Hdt & Hr & _)|(e & He & _ & Hr & _)];
        destruct (plot_tile_on_map w img LAT LON ZOOM ts AUTO_SAVE s2)
          as [[[]|e'] s']; cbn [fst snd] in *; try discriminate
    end.
    + now rewrite Hr.
    + cbn [print snd requests]. now rewrite Hr.
Qed.

(** X17. When the tile fetch raises, be it the transport or the decoder,
    the main block prints [Error: ] and the message, makes no plotting
    call, and leaves figures and files as they were. *)
Theorem main_tile_failure (w : World) (s : State) (ts : PyVal) (e : PyExc) :
  fst (get_latest_timestamp w s) = Return ts ->
  fst (get_radar_tile_by_latlon w ts (PyInt ZOOM) (PyFloat LAT) (PyFloat LON)
         default_color default_tile_size default_smooth default_snow s)
  = Raise e ->
  let s' := snd (main w s) in
  last (stdout s') = Some ("Error: " +:+ exc_str e)
  /\ calls s' = calls s
  /\ rcParams s' = rcParams s
  /\ figures s' = figures s
  /\ files s' = files s.
Proof.
  rewrite get_latest_timestamp_run, get_radar_tile_run. cbn [fst].
  fold (configured_url ts). intros Hts Himg. cbv zeta.
  rewrite main_run, Hts. cbv zeta. rewrite Himg. cbn [snd].
  pose proof (main_plot_state w s ts) as (Hc & Hrc & Hfig & Hf & _).
  cbv zeta in Hc, Hrc, Hfig, Hf.
  unfold printed at 1 3 5 7 9.
  cbn [print snd stdout calls rcParams figures files].
  repeat split; try assumption. apply last_snoc.
Qed.

Lemma main_tile_failure_witness :
  last (stdout (snd (main world_tile_timeout initial)))
  = Some ("Error: " +:+ exc_str tile_timeout).
Proof.
  refine (proj1 (main_tile_failure world_tile_timeout initial
                   (PyInt 1700000000) tile_timeout _ _)).
  - vm_compute. reflexivity.
  - vm_compute. reflexivity.
Defined.

(** X18. No plotting without an image: if the main block made any
    plotting call, then the timestamp fetch returned and the tile fetch
    returned a bitmap. *)
Theorem main_plots_only_with_image (w : World) (s : State) :
  calls (snd (main w s)) <> calls s ->
  exists ts img,
    fst (get_latest_timestamp w s) = Return ts
    /\ fst (get_radar_tile_by_latlon w ts (PyInt ZOOM) (PyFloat LAT)
              (PyFloat LON) default_color default_tile_size default_smooth
              default_snow s) = Return (Some img).
Proof.
  rewrite main_run, get_latest_timestamp_run. cbv zeta. cbn [fst].
  destruct (timestamp_outcome w) as [ts|e];
    [|intros H; now destruct H].
  pose proof (main_plot_state w s ts) as (Hc & _). cbv zeta in Hc.
  destruct (tile_outcome w (configured_url ts)) as [[img|]|e] eqn:Htile.
  - intros _. exists ts, img. split; [reflexivity|].
    rewrite get_radar_tile_run. exact Htile.
  - intros H. now destruct H.
  - intros H. now destruct H.
Qed.

Lemma main_plots_only_with_image_witness :
  exists ts img,
    fst (get_latest_timestamp world_ok initial) = Return ts
    /\ fst (get_radar_tile_by_latlon world_ok ts (PyInt ZOOM) (PyFloat LAT)
              (PyFloat LON) default_color default_tile_size default_smooth
              default_snow initial) = Return (Some img).
Proof.
  refine (main_plots_only_with_image world_ok initial _).
  vm_compute. discriminate.
Defined.

Lemma tile_outcome_image w url img :
  tile_outcome w url = Return (Some img) ->
  forall s,
    tile_state w url s
    = log_request url 15 (printed ("Fetching: " +:+ url) s).
Proof.
  unfold tile_outcome, tile_state. intros H s.
  destruct (http w url 15) as [r|e]; [|discriminate].
  cbn [obind] in H. now destruct (is_image_200 r).
Qed.

(** X19. A time value the calendar refuses is only found out at the
    title.  When the metadata yields a timestamp that does not convert
    to a date (text, or a number out of range), the tile is still
    downloaded and the figure drawn; the main block then prints the
    conversion's message after [Error: ], saves nothing, ends normally,
    and leaves the figure open. *)
Theorem main_bad_time_value (w : World) (s : State) (ts : PyVal)
  (img : Image) (e : PyExc) :
  (forall c, mpl_fault w c = None) ->
  fst (get_latest_timestamp w s) = Return ts ->
  fst (get_radar_tile_by_latlon w ts (PyInt ZOOM) (PyFloat LAT) (PyFloat LON)
         default_color default_tile_size default_smooth default_snow s)
  = Return (Some img) ->
  utcfromtimestamp ts = Raise e ->
  let s' := snd (main w s) in
  fst (main w s) = Return tt
  /\ stdout s'
     = stdout s ++ ["Fetching latest radar image...";
                    "Fetching: " +:+ configured_url ts;
                    "Error: " +:+ exc_str e]
  /\ requests s' = requests s ++ [(API_URL, 10); (configured_url ts, 15)]
  /\ files s' = files s
  /\ map fig_num (figures s')
     = next_num (figures s) :: map fig_num (figures s).
Proof.
  rewrite get_latest_timestamp_run, get_radar_tile_run. cbn [fst].
  fold (configured_url ts). intros Hw Hts Himg Hbad. cbv zeta.
  rewrite main_run, Hts. cbv zeta. rewrite Himg.
  rewrite (tile_outcome_image w _ img Himg).
  unfold try_except.
  erewrite plot_bad_timestamp_run
    by (try exact Hw; try exact Hbad; reflexivity).
  unfold stopped_before_title, printed.
  cbn [print fst snd stdout requests calls rcParams figures files
       log_request String.concat map fig_num].
  rewrite <- !app_assoc. repeat split; reflexivity.
Qed.

Lemma main_bad_time_value_witness :
  stdout (snd (main world_text_time initial))
  = ["Fetching latest radar image...";
     "Fetching: " +:+ configured_url (PyStr "1700000000");
     "Error: 'str' object cannot be interpreted as an integer"].
Proof.
  refine (proj1 (proj2 (main_bad_time_value world_text_time initial
                          (PyStr "1700000000")
                          (to_rgba world_text_time
                             (mkImage "P" 256 256 []))
                          (mkExc TypeError
                             "'str' object cannot be interpreted as an integer")
                          _ _ _ _))).
  - intros c. reflexivity.
  - vm_compute. reflexivity.
  - vm_compute. reflexivity.
  - reflexivity.
Defined.

Lemma main_success_run w s ts img dt :
  (forall c, mpl_fault w c = None) ->
  timestamp_outcome w = Return ts ->
  tile_outcome w (configured_url ts) = Return (Some img) ->
  utcfromtimestamp ts = Return dt ->
  main w s = (Return tt, after_success ts img dt s).
Proof.
  intros Hw Hts Himg Hdt.
  rewrite main_run, Hts. cbv zeta. rewrite Himg.
  rewrite (tile_outcome_image w _ img Himg).
  unfold try_except.
  erewrite plot_run_ok by (try exact Hw; try exact Hdt; reflexivity).
  unfold plotted, printed, after_success, AUTO_SAVE.
  cbn [print fst snd stdout requests calls rcParams figures files
       log_request String.concat app].
  rewrite <- !app_assoc. reflexivity.
Qed.

(** X20. The whole run when nothing fails.  With no plotting call
    failing, a timestamp that converts to a date and a tile that decodes,
    the main block sends the two requests, prints the three lines, writes
    the picture of the finished figure under the name derived from the
    timestamp, and leaves no figure open. *)
Theorem main_success (w : World) (s : State) (ts : PyVal) (img : Image)
  (dt : datetime) :
  (forall c, mpl_fault w c = None) ->
  fst (get_latest_timestamp w s) = Return ts ->
  fst (get_radar_tile_by_latlon w ts (PyInt ZOOM) (PyFloat LAT) (PyFloat LON)
         default_color default_tile_size default_smooth default_snow s)
  = Return (Some img) ->
  utcfromtimestamp ts = Return dt ->
  let name := output_filename dt ZOOM in
  let s' := snd (main w s) in
  fst (main w s) = Return tt
  /\ stdout s'
     = stdout s ++ ["Fetching latest radar image...";
                    "Fetching: " +:+ configured_url ts;
                    "Saved image as " +:+ name]
  /\ requests s' = requests s ++ [(API_URL, 10); (configured_url ts, 15)]
  /\ figures s' = figures s
  /\ files s'
     = <[name := saved_picture (next_num (figures s)) img
                   (extent_of LAT LON (Binary64.literal 28125 4)) dt]>
         (files s).
Proof.
  rewrite get_latest_timestamp_run, get_radar_tile_run. cbn [fst].
  fold (configured_url ts). intros Hw Hts Himg Hdt. cbv zeta.
  rewrite (main_success_run w s ts img dt Hw Hts Himg Hdt).
  repeat split; reflexivity.
Qed.

Lemma main_success_witness :
  stdout (snd (main world_ok initial))
  = ["Fetching latest radar image...";
     "Fetching: " +:+ configured_url (PyInt 1700000000);
     "Saved image as " +:+ output_filename (mkDatetime 2023 11 14 22 13 20) ZOOM].
Proof.
  refine (proj1 (proj2 (main_success world_ok initial (PyInt 1700000000)
                          (to_rgba world_ok (mkImage "P" 256 256 []))
                          (mkDatetime 2023 11 14 22 13 20) _ _ _ _))).
  - intros c. reflexivity.
  - vm_compute. reflexivity.
  - vm_compute. reflexivity.
  - reflexivity.
Defined.

(** ** Zoom levels *)

Section ZoomLevels.
Local Open Scope Q_scope.

Lemma delta_next_zoom_Q (zoom : Z) :
  (0 <= zoom)%Z ->
  360 # Z.to_pos (2 ^ (zoom + 1)) == (360 # Z.to_pos (2 ^ zoom)) * (1 # 2).
Proof.
  intros Hz. unfold Qeq, Qmult. cbn [Qnum Qden].
  rewrite Z.pow_add_r by lia.
  assert (Hp : (0 < 2 ^ zoom)%Z) by (apply Z.pow_pos_nonneg; lia).
  rewrite Pos2Z.inj_mul, !Z2Pos.id by lia. change (2 ^ 1)%Z with 2%Z.
  change (Z.pos 2) with 2%Z. lia.
Qed.

(** X21. One zoom level up halves the side of the extent.  In exact
    arithmetic, for every zoom from 0 on: [delta] at [zoom + 1] is half
    of [delta] at [zoom]; each extent is a square of side [delta]; and
    the extent at [zoom + 1] lies strictly inside the one at [zoom],
    around the same point.  In binary64 the halving is exact from zoom 2
    to zoom 8. *)
Theorem zoom_halves_extent (zoom : Z) (lat lon : Q) :
  (0 <= zoom)%Z ->
  (exists (d d' : Q) (e e' : Extent Q),
      delta_of zoom = Return d /\ delta_of (zoom + 1) = Return d'
      /\ extent lat lon zoom = Return e
      /\ extent lat lon (zoom + 1) = Return e'
      /\ d' == d / 2
      /\ lon_max e - lon_min e == d /\ lat_max e - lat_min e == d
      /\ lon_min e < lon_min e' /\ lon_max e' < lon_max e
      /\ lat_min e < lat_min e' /\ lat_max e' < lat_max e)
  /\ ((2 <= zoom <= 8)%Z ->
      exists d : float64,
        delta_of zoom = Return d /\ delta_of (zoom + 1) = Return (half d)).
Proof.
  intros Hz. split.
  - exists (360 # Z.to_pos (2 ^ zoom)), (360 # Z.to_pos (2 ^ (zoom + 1))).
    exists (extent_of lat lon (360 # Z.to_pos (2 ^ zoom))).
    exists (extent_of lat lon (360 # Z.to_pos (2 ^ (zoom + 1)))).
    assert (Hd := delta_of_Q zoom Hz).
    assert (Hd' := delta_of_Q (zoom + 1) ltac:(lia)).
    split; [exact Hd|]. split; [exact Hd'|].
    split; [unfold extent; now rewrite Hd|].
    split; [unfold extent; now rewrite Hd'|].
    pose proof (delta_next_zoom_Q zoom Hz) as Hhalf.
    assert (Hpos : 0 < 360 # Z.to_pos (2 ^ zoom)) by reflexivity.
    set (d := 360 # Z.to_pos (2 ^ zoom)) in *.
    set (d' := 360 # Z.to_pos (2 ^ (zoom + 1))) in *.
    unfold extent_of.
    cbn [lon_min lon_max lat_min lat_max num_sub num_add PyNum_Q].
    assert (Hh : half d == d * (1 # 2)) by reflexivity.
    assert (Hh' : half d' == d' * (1 # 2)) by reflexivity.
    assert (Hq : d / 2 == d * (1 # 2)) by reflexivity.
    rewrite Hq. set (h := half d) in *. set (h' := half d') in *.
    repeat split; lra.
  - intros Hr.
    assert (Hc : (zoom = 2 \/ zoom = 3 \/ zoom = 4 \/ zoom = 5 \/ zoom = 6
                  \/ zoom = 7 \/ zoom = 8)%Z) by lia.
    destruct Hc as [->|[->|[->|[->|[->|[->| ->]]]]]];
      (eexists; split; [reflexivity|]; vm_compute; reflexivity).
Qed.

Lemma zoom_halves_extent_witness :
  exists d : float64,
    delta_of 7 = Return d /\ delta_of (7 + 1) = Return (half d).
Proof.
  refine (proj2 (zoom_halves_extent 7 (157 # 10) (1217 # 10) _) _); lia.
Defined.

End ZoomLevels.

(** ** The calendar and the name of the output file *)

Ltac eval_tables :=
  repeat match goal with
    | |- context [DAYS_IN_MONTH ?x] =>
        let v := eval vm_compute in (DAYS_IN_MONTH x) in
        change (DAYS_IN_MONTH x) with v
    | |- context [DAYS_BEFORE_MONTH ?x] =>
        let v := eval vm_compute in (DAYS_BEFORE_MONTH x) in
        change (DAYS_BEFORE_MONTH x) with v
    | |- context [b2z ?b] =>
        let v := eval vm_compute in (b2z b) in
        change (b2z b) with v
    end.

Lemma month_day_spec (n : Z) (leapyear : bool) :
  0 <= n <= 364 ->
  let '(m, d) := month_day n leapyear in
  1 <= m <= 12 /\ 1 <= d <= 31
  /\ DAYS_BEFORE_MONTH m + b2z ((2 <? m) && leapyear) + d = n + 1.
Proof.
  intros Hn. unfold month_day. rewrite Z.shiftr_div_pow2 by lia.
  change (2 ^ 5) with 32.
  assert (Hm : 32 * ((n + 50) / 32) <= n + 50 < 32 * ((n + 50) / 32) + 32)
    by (Z.div_mod_to_equations; lia).
  set (m := (n + 50) / 32) in *.
  assert (Hc : m = 1 \/ m = 2 \/ m = 3 \/ m = 4 \/ m = 5 \/ m = 6 \/ m = 7
               \/ m = 8 \/ m = 9 \/ m = 10 \/ m = 11 \/ m = 12) by lia.
  clearbody m.
  destruct Hc as [->|[->|[->|[->|[->|[->|[->|[->|[->|[->|[->| ->]]]]]]]]]]];
    destruct leapyear; eval_tables;
    match goal with
    | |- context [?a <? ?b] => destruct (Z.ltb_spec a b)
    end; eval_tables; lia.
Qed.

(** A year written as [400 a + 100 b + 4 c + e + 1], the way [ord2ymd]
    counts it. *)
Lemma days_before_year_cycles (a b c e : Z) :
  0 <= b <= 3 -> 0 <= c <= 24 -> 0 <= e <= 3 ->
  days_before_year (400 * a + 100 * b + 4 * c + e + 1)
  = 146097 * a + 36524 * b + 1461 * c + 365 * e.
Proof.
  intros Hb Hc He. unfold days_before_year. cbv zeta.
  replace (400 * a + 100 * b + 4 * c + e + 1 - 1)
    with (400 * a + 100 * b + 4 * c + e) by lia.
  Z.div_mod_to_equations. lia.
Qed.

Lemma is_leap_cycles (a b c e : Z) :
  0 <= b <= 3 -> 0 <= c <= 24 -> 0 <= e <= 3 ->
  is_leap (400 * a + 100 * b + 4 * c + e + 1)
  = (e =? 3) && (negb (c =? 24) || (b =? 3)).
Proof.
  intros Hb Hc He. unfold is_leap.
  destruct (Z.eqb_spec e 3), (Z.eqb_spec c 24), (Z.eqb_spec b 3);
    repeat match goal with
      | |- context [?x mod ?k =? 0] => destruct (Z.eqb_spec (x mod k) 0)
      end; cbn [andb orb negb]; try reflexivity;
    exfalso; Z.div_mod_to_equations; lia.
Qed.

Lemma ord2ymd_month_day (n : Z) :
  let a := (n - 1) / 146097 in
  let r1 := (n - 1) mod 146097 in
  let b := r1 / 36524 in
  let r2 := r1 mod 36524 in
  let c := r2 / 1461 in
  let r3 := r2 mod 1461 in
  let e := r3 / 365 in
  let r4 := r3 mod 365 in
  let y := 400 * a + 100 * b + 4 * c + e + 1 in
  ord2ymd n =
  if (e =? 4) || (b =? 4) then (y - 1, 12, 31)
  else let '(m, d) :=
         month_day r4 ((e =? 3) && (negb (c =? 24) || (b =? 3))) in
       (y, m, d).
Proof.
  cbv zeta. unfold ord2ymd, month_day. cbv zeta.
  replace ((n - 1) / 146097 * 400 + 1 + (n - 1) mod 146097 / 36524 * 100 +
           (n - 1) mod 146097 mod 36524 / 1461 * 4 +
           (n - 1) mod 146097 mod 36524 mod 1461 / 365)
    with (400 * ((n - 1) / 146097) + 100 * ((n - 1) mod 146097 / 36524) +
          4 * ((n - 1) mod 146097 mod 36524 / 1461) +
          (n - 1) mod 146097 mod 36524 mod 1461 / 365 + 1) by lia.
  destruct ((_ =? 4) || (_ =? 4)); [reflexivity|].
  destruct (_ <? _); reflexivity.
Qed.

Lemma ord2ymd_inverse (n : Z) :
  let '(y, m, d) := ord2ymd n in
  ymd2ord y m d = n /\ 1 <= m <= 12 /\ 1 <= d <= 31.
Proof.
  rewrite ord2ymd_month_day. cbv zeta.
  pose proof (Z.div_mod (n - 1) 146097 ltac:(lia)) as E1.
  pose proof (Z.mod_pos_bound (n - 1) 146097 ltac:(lia)) as B1.
  set (a := (n - 1) / 146097) in *. set (r1 := (n - 1) mod 146097) in *.
  pose proof (Z.div_mod r1 36524 ltac:(lia)) as E2.
  pose proof (Z.mod_pos_bound r1 36524 ltac:(lia)) as B2.
  set (b := r1 / 36524) in *. set (r2 := r1 mod 36524) in *.
  pose proof (Z.div_mod r2 1461 ltac:(lia)) as E3.
  pose proof (Z.mod_pos_bound r2 1461 ltac:(lia)) as B3.
  set (c := r2 / 1461) in *. set (r3 := r2 mod 1461) in *.
  pose proof (Z.div_mod r3 365 ltac:(lia)) as E4.
  pose proof (Z.mod_pos_bound r3 365 ltac:(lia)) as B4.
  set (e := r3 / 365) in *. set (r4 := r3 mod 365) in *.
  clearbody a r1 b r2 c r3 e r4.
  assert (Hb : 0 <= b <= 4) by lia. assert (Hc : 0 <= c <= 24) by lia.
  assert (He : 0 <= e <= 4) by lia.
  destruct (Z.eqb_spec e 4) as [He4|He4]; cbn [orb].
  - (* the last day of a leap year *)
    assert (Hb3 : b <= 3) by lia. assert (Hc23 : c <= 23) by lia.
    replace (400 * a + 100 * b + 4 * c + e + 1 - 1)
      with (400 * a + 100 * b + 4 * c + 3 + 1) by lia.
    unfold ymd2ord.
    rewrite days_before_year_cycles, is_leap_cycles by lia.
    destruct (Z.eqb_spec c 24); [lia|].
    change (3 =? 3) with true. cbn [negb orb andb]. eval_tables. lia.
  - destruct (Z.eqb_spec b 4) as [Hb4|Hb4].
    + (* the last day of a 400-year cycle *)
      replace (400 * a + 100 * b + 4 * c + e + 1 - 1)
        with (400 * a + 100 * 3 + 4 * 24 + 3 + 1) by lia.
      unfold ymd2ord.
      rewrite days_before_year_cycles, is_leap_cycles by lia.
      eval_tables. lia.
    + pose proof (month_day_spec r4
                    ((e =? 3) && (negb (c =? 24) || (b =? 3)))
                    ltac:(lia)) as Hmd.
      destruct (month_day r4 _) as [m d].
      destruct Hmd as (Hm & Hd & Hsum). unfold ymd2ord.
      rewrite days_before_year_cycles, is_leap_cycles by lia.
      repeat split; lia.
Qed.

(** ** File names *)

Lemma string_app_assoc (a b c : string) : (a +:+ b) +:+ c = a +:+ (b +:+ c).
Proof.
  induction a as [|x a IH]; [reflexivity|].
  change (String x ((a +:+ b) +:+ c) = String x (a +:+ (b +:+ c))).
  now f_equal.
Qed.

Lemma string_app_inj_length (a b x y : string) :
  String.length a = String.length b ->
  a +:+ x = b +:+ y -> a = b /\ x = y.
Proof.
  revert b. induction a as [|c a IH]; intros [|c' b] Hlen H;
    try discriminate.
  - now split.
  - cbn [String.append] in H. injection H as -> H.
    destruct (IH b) as [-> ->]; [now injection Hlen|exact H|now split].
Qed.

Lemma strftime_name (dt : datetime) :
  strftime dt "%Y%m%d_%H%M"
  = pad 4 (year dt) +:+ pad 2 (month dt) +:+ pad 2 (day dt) +:+ "_"
      +:+ pad 2 (hour dt) +:+ pad 2 (minute dt) +:+ "".
Proof. reflexivity. Qed.

(** The fields of a date made from a timestamp are in range, and the
    date determines the day count. *)
Lemma datetime_from_seconds_fields (t : Z) (dt : datetime) :
  datetime_from_seconds t = Return dt ->
  1 <= year dt <= 9999 /\ 1 <= month dt <= 12 /\ 1 <= day dt <= 31
  /\ 0 <= hour dt <= 23 /\ 0 <= minute dt <= 59
  /\ ymd2ord (year dt) (month dt) (day dt) = t / 86400 + EPOCH_ORDINAL
  /\ t / 60 = (t / 86400) * 1440 + hour dt * 60 + minute dt.
Proof.
  unfold datetime_from_seconds.
  destruct ((t <? - 2 ^ 63) || (2 ^ 63 <=? t)); [discriminate|].
  pose proof (ord2ymd_inverse (t / 86400 + EPOCH_ORDINAL)) as Hinv.
  destruct (ord2ymd (t / 86400 + EPOCH_ORDINAL)) as [[y m] d].
  destruct ((y - 1900 <? - 2 ^ 31) || (2 ^ 31 <=? y - 1900)); [discriminate|].
  destruct ((y <? MINYEAR) || (MAXYEAR <? y)) eqn:Hy; [discriminate|].
  intros [= <-]. cbn [year month day hour minute].
  apply orb_false_iff in Hy as [Hy1 Hy2].
  apply Z.ltb_ge in Hy1, Hy2. unfold MINYEAR, MAXYEAR in *.
  destruct Hinv as (Hord & Hm & Hd).
  repeat split; try lia; try exact Hord; Z.div_mod_to_equations; lia.
Qed.

Lemma digits_value_snoc (s : string) (c : ascii) :
  digits_value (s +:+ String c "") = digit_step (digits_value s) c.
Proof.
  unfold digits_value.
  assert (H : forall acc,
            fold_left digit_step (list_ascii_of_string (s +:+ String c "")) acc
            = digit_step (fold_left digit_step (list_ascii_of_string s) acc) c).
  { induction s as [|x s IH]; intros acc; [reflexivity|]. cbn. apply IH. }
  apply H.
Qed.

Lemma pretty_N_go_app (x : N) (s : string) :
  pretty_N_go x s = pretty_N_go x "" +:+ s.
Proof.
  revert s. induction (N.lt_wf_0 x) as [x _ IH]. intros s.
  assert (Hx : (x = 0 \/ 0 < x)%N) by lia. destruct Hx as [->|Hx].
  - now rewrite !pretty_N_go_0.
  - rewrite (pretty_N_go_step x s Hx), (pretty_N_go_step x "" Hx).
    assert (Hlt : (x / 10 < x)%N) by (apply N.div_lt; lia).
    rewrite (IH (x / 10)%N Hlt (String (pretty_N_char (x mod 10)) s)).
    rewrite (IH (x / 10)%N Hlt (String (pretty_N_char (x mod 10)) "")).
    now rewrite string_app_assoc.
Qed.

Lemma pretty_N_char_value (d : N) :
  (d < 10)%N -> Z.of_N (N_of_ascii (pretty_N_char d)) - 48 = Z.of_N d.
Proof.
  intros Hd.
  assert (Hc : (d = 0 \/ d = 1 \/ d = 2 \/ d = 3 \/ d = 4 \/ d = 5 \/ d = 6
                \/ d = 7 \/ d = 8 \/ d = 9)%N) by lia.
  destruct Hc as [->|[->|[->|[->|[->|[->|[->|[->|[->| ->]]]]]]]]];
    reflexivity.
Qed.

Lemma digits_value_pretty_N_go (x : N) :
  digits_value (pretty_N_go x "") = Z.of_N x.
Proof.
  induction (N.lt_wf_0 x) as [x _ IH].
  assert (Hx : (x = 0 \/ 0 < x)%N) by lia. destruct Hx as [->|Hx].
  - reflexivity.
  - rewrite pretty_N_go_step by exact Hx. rewrite pretty_N_go_app.
    rewrite digits_value_snoc. unfold digit_step.
    rewrite IH by (apply N.div_lt; lia).
    rewrite pretty_N_char_value by (apply N.mod_lt; lia).
    rewrite (N.div_mod x 10) at 3 by lia. lia.
Qed.

(** A number printed in decimal reads back as itself. *)
Lemma digits_value_pretty (n : Z) : 0 <= n -> digits_value (pretty n) = n.
Proof.
  intros Hn. destruct n as [|p|p]; [reflexivity| |lia].
  change (pretty (Z.pos p)) with (pretty (N.pos p)).
  unfold pretty, pretty_N. destruct (decide (N.pos p = 0%N)); [discriminate|].
  now rewrite digits_value_pretty_N_go.
Qed.

Lemma digits_value_zeros (k : nat) (s : string) :
  digits_value (string_of_list_ascii (repeat "0"%char k) +:+ s)
  = digits_value s.
Proof. induction k as [|k IH]; [reflexivity|exact IH]. Qed.

Lemma digits_value_pad (width : nat) (n : Z) :
  0 <= n -> digits_value (pad width n) = n.
Proof.
  intros Hn. unfold pad. cbv zeta. rewrite digits_value_zeros.
  now apply digits_value_pretty.
Qed.

Lemma pad_inj (width : nat) (a b : Z) :
  0 <= a -> 0 <= b -> pad width a = pad width b -> a = b.
Proof.
  intros Ha Hb Heq.
  rewrite <- (digits_value_pad width a Ha), <- (digits_value_pad width b Hb).
  now rewrite Heq.
Qed.

Lemma pretty_N_go_length (k : nat) (x : N) (s : string) :
  (x < 10 ^ N.of_nat k)%N ->
  (String.length (pretty_N_go x s) <= k + String.length s)%nat.
Proof.
  revert x s. induction k as [|k IH]; intros x s Hx.
  - assert (x = 0%N) by (cbn in Hx; lia). subst x.
    rewrite pretty_N_go_0. lia.
  - assert (Hc : (x = 0 \/ 0 < x)%N) by lia. destruct Hc as [->|Hpos].
    + rewrite pretty_N_go_0. lia.
    + rewrite pretty_N_go_step by exact Hpos.
      assert (Hdiv : (x / 10 < 10 ^ N.of_nat k)%N).
      { apply N.Div0.div_lt_upper_bound.
        rewrite Nat2N.inj_succ, N.pow_succ_r' in Hx. lia. }
      specialize (IH _ (String (pretty_N_char (x mod 10)) s) Hdiv).
      cbn [String.length] in IH. lia.
Qed.

Lemma pretty_length (k : nat) (n : Z) :
  0 <= n < 10 ^ Z.of_nat k -> (1 <= k)%nat ->
  (String.length (pretty n) <= k)%nat.
Proof.
  intros Hn Hk. destruct n as [|p|p]; [cbn; lia| |lia].
  change (pretty (Z.pos p)) with (pretty (N.pos p)).
  unfold pretty, pretty_N. destruct (decide (N.pos p = 0%N)); [discriminate|].
  pose proof (pretty_N_go_length k (N.pos p) "") as H.
  cbn [String.length] in H. rewrite Nat.add_0_r in H. apply H.
  assert (Hz : Z.of_N (N.pos p) < Z.of_N (10 ^ N.of_nat k)).
  { rewrite N2Z.inj_pow, nat_N_Z. cbn. lia. }
  lia.
Qed.

Lemma zeros_length (k : nat) :
  String.length (string_of_list_ascii (repeat "0"%char k)) = k.
Proof. induction k as [|k IH]; [reflexivity|cbn; now rewrite IH]. Qed.

Lemma pad_length (width : nat) (n : Z) :
  0 <= n < 10 ^ Z.of_nat width -> (1 <= width)%nat ->
  String.length (pad width n) = width.
Proof.
  intros Hn Hw. unfold pad. cbv zeta.
  rewrite string_length_app, zeros_length.
  pose proof (pretty_length width n Hn Hw). lia.
Qed.

(** The name of the output file tells the date, the hour, the minute and
    the zoom. *)
Lemma output_filename_inj (t1 t2 z1 z2 : Z) (dt1 dt2 : datetime) :
  datetime_from_seconds t1 = Return dt1 ->
  datetime_from_seconds t2 = Return dt2 ->
  output_filename dt1 z1 = output_filename dt2 z2 ->
  t1 / 60 = t2 / 60 /\ z1 = z2.
Proof.
  intros H1 H2 Hname.
  destruct (datetime_from_seconds_fields t1 dt1 H1)
    as (Hy1 & Hm1 & Hd1 & Hh1 & Hmi1 & Hord1 & Hmin1).
  destruct (datetime_from_seconds_fields t2 dt2 H2)
    as (Hy2 & Hm2 & Hd2 & Hh2 & Hmi2 & Hord2 & Hmin2).
  unfold output_filename in Hname. rewrite !strftime_name in Hname.
  apply (inj (String.app _)) in Hname.
  rewrite !string_app_assoc in Hname.
  apply string_app_inj_length in Hname as [Hy Hname];
    [|now rewrite !pad_length by (cbn; lia)].
  apply string_app_inj_length in Hname as [Hm Hname];
    [|now rewrite !pad_length by (cbn; lia)].
  apply string_app_inj_length in Hname as [Hd Hname];
    [|now rewrite !pad_length by (cbn; lia)].
  apply (inj (String.app _)) in Hname.
  apply string_app_inj_length in Hname as [Hh Hname];
    [|now rewrite !pad_length by (cbn; lia)].
  apply string_app_inj_length in Hname as [Hmi Hname];
    [|now rewrite !pad_length by (cbn; lia)].
  cbn [String.append] in Hname.
  apply (inj (String.app "_z")) in Hname.
  apply string_app_inj_r in Hname. apply (inj pretty) in Hname.
  apply pad_inj in Hy; [|lia|lia].
  apply pad_inj in Hm; [|lia|lia].
  apply pad_inj in Hd; [|lia|lia].
  apply pad_inj in Hh; [|lia|lia].
  apply pad_inj in Hmi; [|lia|lia].
  split; [|exact Hname].
  rewrite Hy, Hm, Hd in Hord1. lia.
Qed.

(** X22. For integer timestamps that convert to a date, two output
    names are the same exactly when the timestamps fall in the same UTC
    minute and the zoom is the same: the name tells the minute and the
    zoom, and nothing finer. *)
Theorem filename_same_iff_same_minute (t1 t2 z1 z2 : Z)
  (dt1 dt2 : datetime) :
  utcfromtimestamp (PyInt t1) = Return dt1 ->
  utcfromtimestamp (PyInt t2) = Return dt2 ->
  output_filename dt1 z1 = output_filename dt2 z2
  <-> t1 / 60 = t2 / 60 /\ z1 = z2.
Proof.
  cbn [utcfromtimestamp]. intros H1 H2. split.
  - now apply output_filename_inj.
  - intros [Hmin ->]. unfold output_filename.
    destruct (datetime_same_minute t1 t2 dt1 dt2 Hmin H1 H2)
      as (Hy & Hm & Hd & Hh & Hmi).
    now rewrite (strftime_same_minute dt1 dt2 _ Hy Hm Hd Hh Hmi).
Qed.

Lemma filename_same_iff_same_minute_witness :
  output_filename (mkDatetime 2023 11 14 22 13 20) 7
  = output_filename (mkDatetime 2023 11 14 22 14 0) 7
  <-> 1700000000 / 60 = 1700000040 / 60 /\ 7 = 7.
Proof.
  refine (filename_same_iff_same_minute 1700000000 1700000040 7 7
            (mkDatetime 2023 11 14 22 13 20) (mkDatetime 2023 11 14 22 14 0)
            _ _); reflexivity.
Defined.



(** ** Running the script again *)

Lemma dark_theme_idem (rc : gmap string string) :
  dark_theme (dark_theme rc) = dark_theme rc.
Proof.
  apply map_eq. intros key. unfold dark_theme.
  rewrite !lookup_insert. repeat case_decide; reflexivity.
Qed.

(** X24. Running the script a second time against the same answers
    changes nothing on disk: when a run succeeds, a second run right
    after it ends normally too, rewrites the same file with the same
    picture, and leaves the files, the theme and the open figures as the
    first run left them. *)
Theorem main_twice (w : World) (s : State) (ts : PyVal) (img : Image)
  (dt : datetime) :
  (forall c, mpl_fault w c = None) ->
  fst (get_latest_timestamp w s) = Return ts ->
  fst (get_radar_tile_by_latlon w ts (PyInt ZOOM) (PyFloat LAT) (PyFloat LON)
         default_color default_tile_size default_smooth default_snow s)
  = Return (Some img) ->
  utcfromtimestamp ts = Return dt ->
  let s1 := snd (main w s) in
  let run2 := main w s1 in
  fst run2 = Return tt
  /\ files (snd run2) = files s1
  /\ rcParams (snd run2) = rcParams s1
  /\ figures (snd run2) = figures s1
  /\ last (stdout (snd run2))
     = Some ("Saved image as " +:+ output_filename dt ZOOM).
Proof.
  rewrite get_latest_timestamp_run, get_radar_tile_run. cbn [fst].
  fold (configured_url ts). intros Hw Hts Himg Hdt. cbv zeta.
  rewrite (main_success_run w s ts img dt Hw Hts Himg Hdt). cbn [snd].
  rewrite (main_success_run w _ ts img dt Hw Hts Himg Hdt). cbn [fst snd].
  unfold after_success. cbn [files rcParams figures stdout].
  repeat split.
  - apply insert_insert_eq.
  - apply dark_theme_idem.
  - change (stdout s ++ ?a) with (stdout s ++ a).
    match goal with
    | |- last (?l ++ [?a; ?b; ?c]) = _ =>
        change (l ++ [a; b; c]) with (l ++ [a; b] ++ [c])
    end.
    rewrite !app_assoc. apply last_snoc.
Qed.

Lemma main_twice_witness :
  files (snd (main world_ok (snd (main world_ok initial))))
  = files (snd (main world_ok initial)).
Proof.
  refine (proj1 (proj2 (main_twice world_ok initial (PyInt 1700000000)
                          (to_rgba world_ok (mkImage "P" 256 256 []))
                          (mkDatetime 2023 11 14 22 13 20) _ _ _ _))).
  - intros c. reflexivity.
  - vm_compute. reflexivity.
  - vm_compute. reflexivity.
  - reflexivity.
Defined.

(** X25. A run of the main block leaves at most one figure open that was
    not open before, and only when it has reported an error: the table
    of open figures is as before, or has one new figure on top and the
    last line printed is an [Error: ] line. *)
Theorem main_figures (w : World) (s : State) :
  let s' := snd (main w s) in
  figures s' = figures s
  \/ exists f e,
       figures s' = f :: figures s
       /\ fig_num f = next_num (figures s)
       /\ last (stdout s') = Some ("Error: " +:+ exc_str e).
Proof.
  cbv zeta. rewrite main_run. cbv zeta.
  destruct (timestamp_outcome w) as [ts|e]; [|now left].
  pose proof (main_plot_state w s ts) as (_ & _ & Hfig & _).
  cbv zeta in Hfig.
  destruct (tile_outcome w (configured_url ts)) as [[img|]|e];
    [|now left|now left].
  unfold try_except.
  match goal with
  | |- context [plot_tile_on_map w img LAT LON ZOOM ts AUTO_SAVE ?s2] =>
      pose proof (plot_tile_on_map_figures w img LAT LON ZOOM ts AUTO_SAVE
                    (figures s2) s2 eq_refl) as H;
      destruct (plot_tile_on_map w img LAT LON ZOOM ts AUTO_SAVE s2)
        as [[[]|e] s']
  end; cbn [fst snd].
  - left. now rewrite H.
  - cbn [print snd figures stdout]. rewrite Hfig in H.
    destruct H as [[H _]|(f & Hf & Hn)]; [now left|].
    right. exists f, e. split; [exact Hf|]. split; [exact Hn|].
    apply last_snoc.
Qed.

(** ** A save that fails *)

Section SaveFails.
Variable w : World.
Hypothesis only_savefig_fails :
  forall c, (forall name, c <> CallSavefig name) -> mpl_fault w c = None.

Lemma subplots_before_save size dpi fc out req cl rc figs fl :
  subplots w size dpi fc (mkState out req cl rc figs fl) =
  (Return (next_num figs),
   mkState out req (cl ++ [CallSubplots]) rc
           (mkFigure (next_num figs) size dpi fc [] :: figs) fl).
Proof.
  unfold subplots. now rewrite only_savefig_fails by discriminate.
Qed.

Lemma draw_before_save a out req cl rc n size dpi fc arts figs fl :
  draw w a (mkState out req cl rc (mkFigure n size dpi fc arts :: figs) fl) =
  (Return tt,
   mkState out req (cl ++ [CallDraw a]) rc
           (mkFigure n size dpi fc (arts ++ [a]) :: figs) fl).
Proof.
  unfold draw. now rewrite only_savefig_fails by discriminate.
Qed.

End SaveFails.

Lemma bind_raises {A B} (c : M A) (k : A -> M B) s e s' :
  c s = (Raise e, s') -> bind c k s = (Raise e, s').
Proof. intros Hc. unfold bind. now rewrite Hc. Qed.

Ltac step_before_save H :=
  erewrite bind_Return
    by first [ apply rcParams_update_step
             | apply subplots_before_save; exact H
             | apply draw_before_save; exact H
             | apply get_facecolor_step
             | apply lift_step ].

(** X26. When writing the file fails and nothing else does, the
    function raises the exception of [savefig] with the figure finished
    and still open: all eleven artists are on it, no file has changed,
    and the line reporting the save is not printed. *)
Theorem plot_save_failure (w : World) (img : Image) (lat lon : float64)
  (zoom : Z) (ts : PyVal) (s : State)
  (d : float64) (dt : datetime) (e : PyExc) :
  (forall c, (forall name, c <> CallSavefig name) -> mpl_fault w c = None) ->
  delta_of zoom = Return d ->
  utcfromtimestamp ts = Return dt ->
  mpl_fault w (CallSavefig (output_filename dt zoom)) = Some e ->
  let run := plot_tile_on_map w img lat lon zoom ts true s in
  fst run = Raise e
  /\ figures (snd run)
     = finished_figure (next_num (figures s)) img (extent_of lat lon d) dt
       :: figures s
  /\ files (snd run) = files s
  /\ stdout (snd run) = stdout s.
Proof.
  intros Hw Hd Hdt Hsave run. unfold run.
  destruct s as [out req cl rc figs fl].
  unfold plot_tile_on_map. rewrite Hd, Hdt.
  do 15 step_before_save Hw.
  erewrite bind_raises
    by (step_before_save Hw; apply bind_raises; unfold savefig;
        rewrite Hsave; reflexivity).
  cbn [fst snd figures files stdout log_call].
  repeat split; reflexivity.
Qed.

Lemma plot_save_failure_witness :
  fst (plot_tile_on_map world_disk_full (mkImage "RGBA" 1 1 []) LAT LON ZOOM
         (PyInt 1700000000) true initial)
  = Raise disk_full.
Proof.
  refine (proj1 (plot_save_failure world_disk_full (mkImage "RGBA" 1 1 [])
                   LAT LON ZOOM (PyInt 1700000000) initial
                   (Binary64.literal 28125 4)
                   (mkDatetime 2023 11 14 22 13 20) disk_full _ _ _ _)).
  - intros c Hc. destruct c; try reflexivity. now destruct (Hc filename).
  - vm_compute. reflexivity.
  - reflexivity.
  - reflexivity.
Defined.
